(** * A shallow embedding of the Sybase bridge ([src/index.js])

    The bridge talks to a Java worker over the worker's standard streams:
    requests go out as one JSON object per line, responses come back as
    decoded JSON values, and a table of pending requests correlates the two.

    The development has three layers:
    - [JS]: the JavaScript values the bridge manipulates (UTF-16 strings,
      JSON values, [JSON.stringify], a JSON reader, [String.prototype.trim]);
    - the bridge itself: the [Sybase] object, its listeners and its methods,
      written in a small state-and-exception monad;
    - the properties of the bridge. *)

From Stdlib Require Import ZArith List Bool Lia.
From Stdlib Require Import Strings.String Strings.Ascii Strings.Byte.
From Stdlib Require Decimal DecimalFacts DecimalPos DecimalZ.
Import ListNotations.

Local Open Scope Z_scope.
Local Open Scope list_scope.

Set Warnings "-register-all".

(* ================================================================== *)
(** * JavaScript strings and JSON *)
(* ================================================================== *)

Module JS.

(** ** Strings *)

(** A JavaScript string is a sequence of 16-bit code units.  A code unit is
    kept as its two bytes, so every value of the type is a code unit. *)
Record CodeUnit : Type := CU { hi : byte; lo : byte }.

Definition jsstring : Type := list CodeUnit.

Definition cu_eqb (a b : CodeUnit) : bool :=
  Byte.eqb (hi a) (hi b) && Byte.eqb (lo a) (lo b).

(** The code unit of a character of the Latin-1 range. *)
Definition ch (a : ascii) : CodeUnit := CU x00 (byte_of_ascii a).

(** A string literal of the source. *)
Definition lit (s : string) : jsstring := List.map ch (list_ascii_of_string s).

(** The literal of one LINE FEED. *)
Definition newline : jsstring := [ch "010"].

(** [is_char c a]: the code unit [c] is the character [a]. *)
Definition is_char (c : CodeUnit) (a : ascii) : bool := cu_eqb c (ch a).

Fixpoint str_eqb (s t : jsstring) : bool :=
  match s, t with
  | [], [] => true
  | a :: s', b :: t' => cu_eqb a b && str_eqb s' t'
  | _, _ => false
  end.

(** Code units below U+0020, which JSON never leaves raw inside a string. *)
Definition is_control (c : CodeUnit) : bool :=
  Byte.eqb (hi c) x00 && (Byte.to_N (lo c) <? 32)%N.

(** Leading (U+D800..U+DBFF) and trailing (U+DC00..U+DFFF) surrogates. *)
Definition is_leading_surrogate (c : CodeUnit) : bool :=
  (216 <=? Byte.to_N (hi c))%N && (Byte.to_N (hi c) <=? 219)%N.

Definition is_trailing_surrogate (c : CodeUnit) : bool :=
  (220 <=? Byte.to_N (hi c))%N && (Byte.to_N (hi c) <=? 223)%N.

(** ** [String.prototype.trim] *)

(** WhiteSpace and LineTerminator of ECMAScript: TAB, LF, VT, FF, CR, SP,
    NBSP, U+1680, U+2000..U+200A, U+2028, U+2029, U+202F, U+205F, U+3000 and
    U+FEFF. *)
Definition is_js_space (c : CodeUnit) : bool :=
  let h := Byte.to_N (hi c) in
  let l := Byte.to_N (lo c) in
  ((h =? 0) && (((9 <=? l) && (l <=? 13)) || (l =? 32) || (l =? 160)))%N
  || ((h =? 22) && (l =? 128))%N
  || ((h =? 32) && ((l <=? 10) || (l =? 40) || (l =? 41) || (l =? 47) || (l =? 95)))%N
  || ((h =? 48) && (l =? 0))%N
  || ((h =? 254) && (l =? 255))%N.

Fixpoint trim_start (s : jsstring) : jsstring :=
  match s with
  | c :: s' => if is_js_space c then trim_start s' else s
  | [] => []
  end.

Definition trim (s : jsstring) : jsstring :=
  List.rev (trim_start (List.rev (trim_start s))).

(** ** [String.prototype.replace(/[\n]/g, "\\n")] *)

(** Every LINE FEED becomes the two characters backslash and [n]. *)
Fixpoint replace_newlines (s : jsstring) : jsstring :=
  match s with
  | [] => []
  | c :: s' =>
      if is_char c "010" then ch "\" :: ch "n" :: replace_newlines s'
      else c :: replace_newlines s'
  end.

(** ** JSON values *)

Inductive json : Type :=
| JNull
| JBool (b : bool)
| JNum (z : Z)
| JStr (s : jsstring)
| JArr (l : list json)
| JObj (members : list (jsstring * json)).

(** Property lookup on a decoded object: of two members with the same key
    the later one wins, as in [JSON.parse]. *)
Fixpoint get_member (k : jsstring) (members : list (jsstring * json)) : option json :=
  match members with
  | [] => None
  | (k', v) :: rest =>
      match get_member k rest with
      | Some v' => Some v'
      | None => if str_eqb k k' then Some v else None
      end
  end.

Definition get_field (k : string) (j : json) : option json :=
  match j with
  | JObj members => get_member (lit k) members
  | _ => None
  end.

Definition field_names (j : json) : list jsstring :=
  match j with
  | JObj members => List.map fst members
  | _ => []
  end.

(** ** [JSON.stringify] *)

(** Numbers.  The bridge only serializes integers (a counter, a clock reading
    in milliseconds, seconds and nanoseconds); [JSON.stringify] prints those
    in decimal, with a minus sign when negative. *)
Fixpoint print_uint (d : Decimal.uint) : jsstring :=
  match d with
  | Decimal.Nil => []
  | Decimal.D0 d' => ch "0" :: print_uint d'
  | Decimal.D1 d' => ch "1" :: print_uint d'
  | Decimal.D2 d' => ch "2" :: print_uint d'
  | Decimal.D3 d' => ch "3" :: print_uint d'
  | Decimal.D4 d' => ch "4" :: print_uint d'
  | Decimal.D5 d' => ch "5" :: print_uint d'
  | Decimal.D6 d' => ch "6" :: print_uint d'
  | Decimal.D7 d' => ch "7" :: print_uint d'
  | Decimal.D8 d' => ch "8" :: print_uint d'
  | Decimal.D9 d' => ch "9" :: print_uint d'
  end.

Definition print_Z (z : Z) : jsstring :=
  match Z.to_int z with
  | Decimal.Pos d => print_uint d
  | Decimal.Neg d => ch "-" :: print_uint d
  end.

(** Hexadecimal digits of [UnicodeEscape], in lower case. *)
Definition hex_digits : list ascii :=
  ["0"; "1"; "2"; "3"; "4"; "5"; "6"; "7"; "8"; "9"; "a"; "b"; "c"; "d"; "e"; "f"]%char.

Definition hex_char (n : N) : CodeUnit := ch (nth (N.to_nat n) hex_digits "0"%char).

Definition hex_byte (b : byte) : jsstring :=
  [hex_char (Byte.to_N b / 16); hex_char (Byte.to_N b mod 16)].

(** [UnicodeEscape]: backslash, [u] and four hexadecimal digits. *)
Definition unicode_escape (c : CodeUnit) : jsstring :=
  ch "\" :: ch "u" :: hex_byte (hi c) ++ hex_byte (lo c).

(** The two-character escapes of [QuoteJSONString], if [c] has one. *)
Definition short_escape (c : CodeUnit) : option ascii :=
  if is_char c "008" then Some "b"%char
  else if is_char c "009" then Some "t"%char
  else if is_char c "010" then Some "n"%char
  else if is_char c "012" then Some "f"%char
  else if is_char c "013" then Some "r"%char
  else if is_char c "034" then Some "034"%char
  else if is_char c "\" then Some "\"%char
  else None.

(** The characters between the quotes of [QuoteJSONString]: the string is
    read code point by code point, so a leading surrogate followed by a
    trailing one stays as it is and a lone surrogate is escaped. *)
Fixpoint quote_chars (s : jsstring) : jsstring :=
  match s with
  | [] => []
  | c :: s' =>
      match short_escape c with
      | Some e => ch "\" :: ch e :: quote_chars s'
      | None =>
          if is_control c then unicode_escape c ++ quote_chars s'
          else if is_leading_surrogate c then
            match s' with
            | d :: s'' =>
                if is_trailing_surrogate d then c :: d :: quote_chars s''
                else unicode_escape c ++ quote_chars s'
            | [] => unicode_escape c
            end
          else if is_trailing_surrogate c then unicode_escape c ++ quote_chars s'
          else c :: quote_chars s'
      end
  end.

Definition QuoteJSONString (s : jsstring) : jsstring :=
  ch "034" :: quote_chars s ++ [ch "034"].

(** Elements and properties are separated by commas, without white space. *)
Fixpoint join_commas (parts : list jsstring) : jsstring :=
  match parts with
  | [] => []
  | [p] => p
  | p :: ps => p ++ ch "," :: join_commas ps
  end.

(** [JSON.stringify] on a value, without indentation. *)
Fixpoint stringify (j : json) : jsstring :=
  match j with
  | JNull => lit "null"
  | JBool true => lit "true"
  | JBool false => lit "false"
  | JNum z => print_Z z
  | JStr s => QuoteJSONString s
  | JArr l => ch "[" :: join_commas (List.map stringify l) ++ [ch "]"]
  | JObj members =>
      ch "{" ::
      join_commas
        (List.map (fun m => QuoteJSONString (fst m) ++ ch ":" :: stringify (snd m)) members)
      ++ [ch "}"]
  end.

(** ** Reading JSON back *)

(** The reader is the worker's side of the wire: it accepts the JSON grammar
    of ECMA-404 with integer numbers (no fraction, no exponent), which is all
    the bridge ever writes.  Nesting and the number of elements are bounded
    by a fuel that [JSON_parse] takes from the length of the text. *)

Definition is_json_ws (c : CodeUnit) : bool :=
  is_char c " " || is_char c "009" || is_char c "010" || is_char c "013".

Fixpoint skip_ws (s : jsstring) : jsstring :=
  match s with
  | c :: s' => if is_json_ws c then skip_ws s' else s
  | [] => []
  end.

Definition digit_of (c : CodeUnit) : option (Decimal.uint -> Decimal.uint) :=
  if is_char c "0" then Some Decimal.D0
  else if is_char c "1" then Some Decimal.D1
  else if is_char c "2" then Some Decimal.D2
  else if is_char c "3" then Some Decimal.D3
  else if is_char c "4" then Some Decimal.D4
  else if is_char c "5" then Some Decimal.D5
  else if is_char c "6" then Some Decimal.D6
  else if is_char c "7" then Some Decimal.D7
  else if is_char c "8" then Some Decimal.D8
  else if is_char c "9" then Some Decimal.D9
  else None.

Fixpoint parse_digits (s : jsstring) : Decimal.uint * jsstring :=
  match s with
  | c :: s' =>
      match digit_of c with
      | Some d => let (u, r) := parse_digits s' in (d u, r)
      | None => (Decimal.Nil, s)
      end
  | [] => (Decimal.Nil, [])
  end.

Definition parse_number (s : jsstring) : option (json * jsstring) :=
  match s with
  | c :: s' =>
      if is_char c "-" then
        match parse_digits s' with
        | (Decimal.Nil, _) => None
        | (u, r) => Some (JNum (Z.of_int (Decimal.Neg u)), r)
        end
      else
        match parse_digits s with
        | (Decimal.Nil, _) => None
        | (u, r) => Some (JNum (Z.of_int (Decimal.Pos u)), r)
        end
  | [] => None
  end.

Definition hex_value (c : CodeUnit) : option N :=
  if Byte.eqb (hi c) x00 then
    let l := Byte.to_N (lo c) in
    if ((48 <=? l) && (l <=? 57))%N then Some (l - 48)%N
    else if ((97 <=? l) && (l <=? 102))%N then Some (l - 87)%N
    else if ((65 <=? l) && (l <=? 70))%N then Some (l - 55)%N
    else None
  else None.

Definition unhex_byte (a b : CodeUnit) : option byte :=
  match hex_value a, hex_value b with
  | Some x, Some y => Byte.of_N (16 * x + y)
  | _, _ => None
  end.

(** The character a two-character escape stands for. *)
Definition unescape (e : CodeUnit) : option CodeUnit :=
  if is_char e "034" then Some (ch "034")
  else if is_char e "\" then Some (ch "\")
  else if is_char e "/" then Some (ch "/")
  else if is_char e "b" then Some (ch "008")
  else if is_char e "f" then Some (ch "012")
  else if is_char e "n" then Some (ch "010")
  else if is_char e "r" then Some (ch "013")
  else if is_char e "t" then Some (ch "009")
  else None.

Definition cons_char (c : CodeUnit) (r : option (jsstring * jsstring))
  : option (jsstring * jsstring) :=
  match r with
  | Some (s, rest) => Some (c :: s, rest)
  | None => None
  end.

(** The characters of a string, after its opening quote and up to the
    closing one. *)
Fixpoint parse_chars (s : jsstring) : option (jsstring * jsstring) :=
  match s with
  | [] => None
  | c :: s' =>
      if is_char c "034" then Some ([], s')
      else if is_char c "\" then
        match s' with
        | e :: s'' =>
            if is_char e "u" then
              match s'' with
              | x1 :: x2 :: x3 :: x4 :: s3 =>
                  match unhex_byte x1 x2, unhex_byte x3 x4 with
                  | Some h, Some l => cons_char (CU h l) (parse_chars s3)
                  | _, _ => None
                  end
              | _ => None
              end
            else
              match unescape e with
              | Some x => cons_char x (parse_chars s'')
              | None => None
              end
        | [] => None
        end
      else if is_control c then None
      else cons_char c (parse_chars s')
  end.

Fixpoint strip_prefix (p s : jsstring) : option jsstring :=
  match p, s with
  | [], _ => Some s
  | a :: p', b :: s' => if cu_eqb a b then strip_prefix p' s' else None
  | _ :: _, [] => None
  end.

Definition parse_word (s : jsstring) : option (json * jsstring) :=
  match strip_prefix (lit "null") s with
  | Some r => Some (JNull, r)
  | None =>
      match strip_prefix (lit "true") s with
      | Some r => Some (JBool true, r)
      | None =>
          match strip_prefix (lit "false") s with
          | Some r => Some (JBool false, r)
          | None => parse_number s
          end
      end
  end.

Fixpoint parse_value (fuel : nat) (s : jsstring) {struct fuel}
  : option (json * jsstring) :=
  match fuel with
  | O => None
  | S n =>
      match skip_ws s with
      | [] => None
      | c :: r =>
          if is_char c "034" then
            match parse_chars r with
            | Some (str, r') => Some (JStr str, r')
            | None => None
            end
          else if is_char c "[" then
            match skip_ws r with
            | [] => None
            | d :: r' =>
                if is_char d "]" then Some (JArr [], r')
                else
                  match parse_elements n (d :: r') with
                  | Some (l, r'') => Some (JArr l, r'')
                  | None => None
                  end
            end
          else if is_char c "{" then
            match skip_ws r with
            | [] => None
            | d :: r' =>
                if is_char d "}" then Some (JObj [], r')
                else
                  match parse_members n (d :: r') with
                  | Some (ms, r'') => Some (JObj ms, r'')
                  | None => None
                  end
            end
          else parse_word (c :: r)
      end
  end

with parse_elements (fuel : nat) (s : jsstring) {struct fuel}
  : option (list json * jsstring) :=
  match fuel with
  | O => None
  | S n =>
      match parse_value n s with
      | None => None
      | Some (v, r) =>
          match skip_ws r with
          | [] => None
          | d :: r' =>
              if is_char d "," then
                match parse_elements n r' with
                | Some (l, r'') => Some (v :: l, r'')
                | None => None
                end
              else if is_char d "]" then Some ([v], r')
              else None
          end
      end
  end

with parse_members (fuel : nat) (s : jsstring) {struct fuel}
  : option (list (jsstring * json) * jsstring) :=
  match fuel with
  | O => None
  | S n =>
      match skip_ws s with
      | [] => None
      | q :: r0 =>
          if is_char q "034" then
            match parse_chars r0 with
            | None => None
            | Some (k, r1) =>
                match skip_ws r1 with
                | [] => None
                | colon :: r2 =>
                    if is_char colon ":" then
                      match parse_value n r2 with
                      | None => None
                      | Some (v, r3) =>
                          match skip_ws r3 with
                          | [] => None
                          | d :: r4 =>
                              if is_char d "," then
                                match parse_members n r4 with
                                | Some (ms, r5) => Some ((k, v) :: ms, r5)
                                | None => None
                                end
                              else if is_char d "}" then Some ([(k, v)], r4)
                              else None
                          end
                      end
                    else None
                end
            end
          else None
      end
  end.

(** A whole text is one value, possibly between white space. *)
Definition JSON_parse (s : jsstring) : option json :=
  match parse_value (S (List.length s)) s with
  | Some (v, r) =>
      match skip_ws r with
      | [] => Some v
      | _ :: _ => None
      end
  | None => None
  end.

End JS.

Import JS.

(* ================================================================== *)
(** * The bridge *)
(* ================================================================== *)

(** ** Values the bridge passes around *)

(** What a caller hands over as [callback]: nothing, [null] (which
    [querySync] passes to [prepareQuery]), or a function.  The caller's
    functions are opaque: a function is known by a label and its calls are
    recorded in the trace of effects. *)
Inductive Callback : Type :=
| CbUndefined
| CbNull
| CbFun (f : nat).

(** [if (callback)]: only a function is truthy. *)
Definition truthy (cb : Callback) : bool :=
  match cb with
  | CbFun _ => true
  | CbUndefined | CbNull => false
  end.

(** Error objects: the ones the bridge builds with [new Error(message)] and
    the [TypeError]s the engine raises on a property access on [undefined] or
    a call of something that is no function. *)
Inductive JSError : Type :=
| Error (message : jsstring)
| TypeError (what : string).

(** Arguments of the callbacks. *)
Inductive Value : Type :=
| VUndefined
| VJson (j : json)
| VError (e : JSError).

Definition VNull : Value := VJson JNull.

(** A reading of the clocks: [new Date().getTime()] and [process.hrtime()]. *)
Record Clock : Type := { now : Z; hr : Z * Z }.

(** The [msg] object of [prepareQuery]: it is both what is serialized to the
    worker and what the table keeps. *)
Record Msg : Type := {
  msgId : Z;
  sql : jsstring;
  sentTime : Z;
  callback : Callback;
  hrstart : Z * Z
}.

(** A decoded message from the worker, typed as the wire format has it; any
    field may be missing. *)
Module JsonMsg.

Record t : Type := mk {
  msgId : option Z;
  result : option (list json);
  javaStartTime : option Z;
  javaEndTime : option Z;
  error : option jsstring
}.

End JsonMsg.

(** ** The table [currentMessages] *)

(** Property keys: [currentMessages[n]] for a number [n] uses the key that
    prints [n]; the constructor also creates the key [cat]; reading
    [currentMessages[undefined]] uses the key [undefined]. *)
Inductive PropertyKey : Type :=
| KNum (z : Z)
| KName (s : string).

Definition key_eqb (a b : PropertyKey) : bool :=
  match a, b with
  | KNum x, KNum y => x =? y
  | KName s, KName t => String.eqb s t
  | _, _ => false
  end.

(** The table starts as [{ cat: 1 }], so a property holds either a number or
    a [msg] object. *)
Inductive Entry : Type :=
| ENumber (n : Z)
| ERequest (m : Msg).

(** Own properties in the order [for ... in] visits them: array indices in
    ascending order, then the other keys in the order they were created. *)
Definition Table : Type := list (PropertyKey * Entry).

Definition is_array_index (k : PropertyKey) : bool :=
  match k with
  | KNum z => (0 <=? z) && (z <? 4294967295)
  | KName _ => false
  end.

Fixpoint tbl_get (k : PropertyKey) (t : Table) : option Entry :=
  match t with
  | [] => None
  | (k', e) :: t' => if key_eqb k k' then Some e else tbl_get k t'
  end.

Fixpoint tbl_delete (k : PropertyKey) (t : Table) : Table :=
  match t with
  | [] => []
  | (k', e) :: t' => if key_eqb k k' then tbl_delete k t' else (k', e) :: tbl_delete k t'
  end.

Fixpoint tbl_replace (k : PropertyKey) (e : Entry) (t : Table) : Table :=
  match t with
  | [] => []
  | (k', e') :: t' => if key_eqb k k' then (k', e) :: t' else (k', e') :: tbl_replace k e t'
  end.

Fixpoint tbl_insert_index (z : Z) (e : Entry) (t : Table) : Table :=
  match t with
  | [] => [(KNum z, e)]
  | (KNum z', e') :: t' =>
      if is_array_index (KNum z') && (z' <? z)
      then (KNum z', e') :: tbl_insert_index z e t'
      else (KNum z, e) :: t
  | (KName _, _) :: _ => (KNum z, e) :: t
  end.

(** [table[k] = e]. *)
Definition tbl_set (k : PropertyKey) (e : Entry) (t : Table) : Table :=
  match tbl_get k t with
  | Some _ => tbl_replace k e t
  | None =>
      match k with
      | KNum z => if is_array_index k then tbl_insert_index z e t else t ++ [(k, e)]
      | KName _ => t ++ [(k, e)]
      end
  end.

(** [entry.callback]; on the number of [cat] the property is [undefined]. *)
Definition entry_callback (e : Entry) : Callback :=
  match e with
  | ERequest m => callback m
  | ENumber _ => CbUndefined
  end.

(** The key of [currentMessages[jsonMsg.msgId]]. *)
Definition key_of_msgId (i : option Z) : PropertyKey :=
  match i with
  | Some z => KNum z
  | None => KName "undefined"
  end.

(** ** The object *)

(** The callback of [connectCore]: the caller's, or the closure of
    [connectAsync] over the [resolve] and [reject] of promise [p]. *)
Inductive ConnectCallback : Type :=
| UserCallback (cb : Callback)
| PromiseCallback (p : nat).

(** ['data'] listeners on the worker's [stdout]. *)
Inductive StdoutListener : Type :=
| HandshakeStdout (cb : ConnectCallback)   (* the [once] of [connectCore] *)
| PipeToJsonParser.                        (* [.pipe(this.jsonParser)] *)

(** ['data'] listeners on the worker's [stderr]. *)
Inductive StderrListener : Type :=
| HandshakeStderr (cb : ConnectCallback)   (* the [once] of [connectCore] *)
| ErrorListener.                           (* [(err) => { onSQLError(err); }] *)

(** ['data'] listeners on [this.jsonParser]. *)
Inductive ParserListener : Type :=
| ResponseListener                         (* [(jsonMsg) => { onSQLResponse(jsonMsg); }] *)
| OnResponse (p : nat).                    (* the [onResponse] of [querySync] *)

(** The child process [this.javaDB], as far as the bridge uses it. *)
Record ChildProcess : Type := {
  stdout_data : list StdoutListener;
  stderr_data : list StderrListener
}.

(** The connection parameters; the bridge only hands them to [spawn]. *)
Record Config : Type := {
  host : jsstring;
  port : jsstring;
  database : jsstring;
  username : jsstring;
  password : jsstring;
  pathToJavaBridge : jsstring;
  encoding : jsstring
}.

Record Sybase : Type := {
  connected : bool;
  config : Config;
  logTiming : bool;
  logs : bool;
  queryCount : Z;
  currentMessages : Table;
  jsonParser : list ParserListener;
  javaDB : option ChildProcess
}.

(** [new Sybase({...})]. *)
Definition new_Sybase (cfg : Config) (timing logging : bool) : Sybase := {|
  connected := false;
  config := cfg;
  logTiming := timing;
  logs := logging;
  queryCount := 0;
  currentMessages := [(KName "cat", ENumber 1)];
  jsonParser := [];
  javaDB := None
|}.

Definition set_connected (b : bool) (st : Sybase) : Sybase :=
  {| connected := b; config := config st; logTiming := logTiming st; logs := logs st;
     queryCount := queryCount st; currentMessages := currentMessages st;
     jsonParser := jsonParser st; javaDB := javaDB st |}.

Definition set_queryCount (n : Z) (st : Sybase) : Sybase :=
  {| connected := connected st; config := config st; logTiming := logTiming st;
     logs := logs st; queryCount := n; currentMessages := currentMessages st;
     jsonParser := jsonParser st; javaDB := javaDB st |}.

Definition set_currentMessages (t : Table) (st : Sybase) : Sybase :=
  {| connected := connected st; config := config st; logTiming := logTiming st;
     logs := logs st; queryCount := queryCount st; currentMessages := t;
     jsonParser := jsonParser st; javaDB := javaDB st |}.

Definition set_jsonParser (ls : list ParserListener) (st : Sybase) : Sybase :=
  {| connected := connected st; config := config st; logTiming := logTiming st;
     logs := logs st; queryCount := queryCount st; currentMessages := currentMessages st;
     jsonParser := ls; javaDB := javaDB st |}.

Definition set_javaDB (w : option ChildProcess) (st : Sybase) : Sybase :=
  {| connected := connected st; config := config st; logTiming := logTiming st;
     logs := logs st; queryCount := queryCount st; currentMessages := currentMessages st;
     jsonParser := jsonParser st; javaDB := w |}.

(** ** Effects *)

(** What [this.log] is asked to print; the text itself is of no interest. *)
Inductive LogLine : Type :=
| LogTiming (sql : option jsstring)
| LogPrepare
| LogWritten (strMsg : jsstring).

(** What a run of the bridge does to the outside. *)
Inductive Effect : Type :=
| Call (f : nat) (args : list Value)     (* a function of the caller is called *)
| Resolve (p : nat) (v : Value)          (* [resolve(v)] of promise [p] *)
| Reject (p : nat) (e : JSError)         (* [reject(e)] of promise [p] *)
| Spawn (cfg : Config)                   (* [spawn('java', ...)] *)
| Kill                                   (* [this.javaDB.kill()] *)
| StdinWrite (line : jsstring)           (* [this.javaDB.stdin.write(line)] *)
| ConsoleLog (what : LogLine)            (* [console.log] *)
| Uncaught (e : JSError).                (* an exception leaves a handler *)

(** How a piece of code ends. *)
Inductive Completion (A : Type) : Type :=
| Normal (a : A)
| Throw (e : JSError).

Arguments Normal {A} a.
Arguments Throw {A} e.

(** Code of the bridge: it reads and writes the object, acts on the outside
    and either returns or throws. *)
Definition Eff (A : Type) : Type := Sybase -> Sybase * list Effect * Completion A.

Definition ret {A : Type} (a : A) : Eff A := fun st => (st, [], Normal a).

Definition bind {A B : Type} (m : Eff A) (k : A -> Eff B) : Eff B :=
  fun st =>
    match m st with
    | (st', out, Normal a) =>
        match k a st' with
        | (st'', out', c) => (st'', out ++ out', c)
        end
    | (st', out, Throw e) => (st', out, Throw e)
    end.

Declare Scope eff_scope.
Delimit Scope eff_scope with eff.
Bind Scope eff_scope with Eff.

Notation "x <- m ;; k" := (bind m (fun x => k))
  (at level 61, m at next level, right associativity) : eff_scope.
Notation "m ;; k" := (bind m (fun _ => k))
  (at level 61, right associativity) : eff_scope.

Local Open Scope eff_scope.

Definition get : Eff Sybase := fun st => (st, [], Normal st).
Definition modify (f : Sybase -> Sybase) : Eff unit := fun st => (f st, [], Normal tt).
Definition tell (e : Effect) : Eff unit := fun st => (st, [e], Normal tt).
Definition throw {A : Type} (e : JSError) : Eff A := fun st => (st, [], Throw e).

(** [cb(args)]. *)
Definition call (cb : Callback) (args : list Value) : Eff unit :=
  match cb with
  | CbFun f => tell (Call f args)
  | CbUndefined | CbNull => throw (TypeError "cb is not a function")
  end.

(** The body of [new Promise((resolve, reject) => ...)]: an exception that
    leaves the executor rejects the promise. *)
Definition executor (p : nat) (body : Eff unit) : Eff unit :=
  fun st =>
    match body st with
    | (st', out, Throw e) => (st', out ++ [Reject p e], Normal tt)
    | r => r
    end.

(** [this.javaDB] when a method is called on it. *)
Definition the_javaDB : Eff ChildProcess :=
  st <- get ;;
  match javaDB st with
  | Some w => ret w
  | None => throw (TypeError "Cannot read properties of undefined")
  end.

Definition set_stdout_data (ls : list StdoutListener) : Eff unit :=
  w <- the_javaDB ;;
  modify (set_javaDB (Some {| stdout_data := ls; stderr_data := stderr_data w |})).

Definition set_stderr_data (ls : list StderrListener) : Eff unit :=
  w <- the_javaDB ;;
  modify (set_javaDB (Some {| stdout_data := stdout_data w; stderr_data := ls |})).

Definition kill : Eff unit := _ <- the_javaDB ;; tell Kill.

Definition stdin_write (line : jsstring) : Eff unit :=
  _ <- the_javaDB ;; tell (StdinWrite line).

(** ** Event emitters *)

Definition callback_eqb (a b : Callback) : bool :=
  match a, b with
  | CbUndefined, CbUndefined => true
  | CbNull, CbNull => true
  | CbFun f, CbFun g => Nat.eqb f g
  | _, _ => false
  end.

Definition connect_callback_eqb (a b : ConnectCallback) : bool :=
  match a, b with
  | UserCallback x, UserCallback y => callback_eqb x y
  | PromiseCallback p, PromiseCallback q => Nat.eqb p q
  | _, _ => false
  end.

Definition stdout_listener_eqb (a b : StdoutListener) : bool :=
  match a, b with
  | HandshakeStdout x, HandshakeStdout y => connect_callback_eqb x y
  | PipeToJsonParser, PipeToJsonParser => true
  | _, _ => false
  end.

Definition stderr_listener_eqb (a b : StderrListener) : bool :=
  match a, b with
  | HandshakeStderr x, HandshakeStderr y => connect_callback_eqb x y
  | ErrorListener, ErrorListener => true
  | _, _ => false
  end.

Definition parser_listener_eqb (a b : ParserListener) : bool :=
  match a, b with
  | ResponseListener, ResponseListener => true
  | OnResponse p, OnResponse q => Nat.eqb p q
  | _, _ => false
  end.

(** [removeListener]: one registration of the listener goes. *)
Fixpoint remove_listener {L : Type} (eqb : L -> L -> bool) (l : L) (ls : list L) : list L :=
  match ls with
  | [] => []
  | l' :: ls' => if eqb l l' then ls' else l' :: remove_listener eqb l ls'
  end.

(** [forEach], and the loop of [emit] over the listeners registered when the
    event is emitted: an exception in one call ends the loop. *)
Fixpoint for_each {X : Type} (xs : list X) (f : X -> Eff unit) : Eff unit :=
  match xs with
  | [] => ret tt
  | x :: xs' => f x ;; for_each xs' f
  end.

(** ** The methods of the bridge *)

Definition isConnected : Eff bool := st <- get ;; ret (connected st).

Definition log (what : LogLine) : Eff unit :=
  st <- get ;;
  if logs st then tell (ConsoleLog what) else ret tt.

(** [n++] on a counter: a JavaScript number holds every integer up to [2^53]
    exactly, and [2^53 + 1] rounds back to [2^53]. *)
Definition js_incr (n : Z) : Z := if n <? 2 ^ 53 then n + 1 else n.

Definition entry_sql (e : Entry) : option jsstring :=
  match e with
  | ERequest m => Some (sql m)
  | ENumber _ => None
  end.

Definition onSQLResponse (jsonMsg : JsonMsg.t) : Eff unit :=
  st <- get ;;
  let key := key_of_msgId (JsonMsg.msgId jsonMsg) in
  let request := tbl_get key (currentMessages st) in
  modify (set_currentMessages (tbl_delete key (currentMessages st))) ;;
  result <- match JsonMsg.result jsonMsg with
            | None => throw (TypeError "Cannot read properties of undefined (reading 'length')")
            | Some [x] => ret (VJson x)
            | Some l => ret (VJson (JArr l))
            end ;;
  request <- match request with
             | None => throw (TypeError "Cannot read properties of undefined (reading 'hrstart')")
             | Some e => ret e
             end ;;
  let err := match JsonMsg.error jsonMsg with
             | Some text => VError (Error text)
             | None => VNull
             end in
  (if logTiming st then log (LogTiming (entry_sql request)) else ret tt) ;;
  call (entry_callback request) [err; result].

Definition onSQLError (data : jsstring) : Eff unit :=
  let error := Error data in
  st <- get ;;
  let callBackFuncitons :=
    List.map (fun kv => entry_callback (snd kv)) (currentMessages st) in
  modify (set_currentMessages []) ;;
  for_each callBackFuncitons (fun cb => call cb [VError error]).

(** [callback(err, data)] for the callback of [connectCore]. *)
Definition connect_callback (cb : ConnectCallback) (err : option JSError) (data : Value)
  : Eff unit :=
  match cb with
  | UserCallback f =>
      call f [match err with Some e => VError e | None => VNull end; data]
  | PromiseCallback p =>
      match err with
      | Some e => tell (Reject p e)
      | None => tell (Resolve p data)
      end
  end.

Definition add_parser_listener (l : ParserListener) : Eff unit :=
  modify (fun st => set_jsonParser (jsonParser st ++ [l]) st).

(** The [once] listener of [connectCore] on [stdout]. *)
Definition connectCore_stdout (callback : ConnectCallback) (data : jsstring) : Eff unit :=
  let dataStr := trim data in
  if negb (str_eqb dataStr (lit "connected")) then
    connect_callback callback (Some (Error (lit "Error connecting " ++ dataStr))) VNull
  else
    set_stderr_data [] ;;
    modify (set_connected true) ;;
    w <- the_javaDB ;;
    set_stdout_data (stdout_data w ++ [PipeToJsonParser]) ;;
    add_parser_listener ResponseListener ;;
    set_stderr_data [ErrorListener] ;;
    connect_callback callback None (VJson (JStr dataStr)).

(** The [once] listener of [connectCore] on [stderr]. *)
Definition connectCore_stderr (callback : ConnectCallback) (data : jsstring) : Eff unit :=
  set_stdout_data [] ;;
  kill ;;
  connect_callback callback (Some (Error data)) VNull.

Definition connectCore (callback : ConnectCallback) : Eff unit :=
  st <- get ;;
  tell (Spawn (config st)) ;;
  modify (set_javaDB (Some {| stdout_data := [HandshakeStdout callback];
                              stderr_data := [HandshakeStderr callback] |})).

Definition connect (callback : Callback) : Eff unit :=
  connectCore (UserCallback callback).

Definition connectAsync (p : nat) : Eff unit :=
  executor p (connectCore (PromiseCallback p)).

(** What [JSON.stringify] sees of [msg]: a property whose value is a function
    or [undefined] is left out, one whose value is [null] is kept. *)
Definition json_of_callback (cb : Callback) : list (jsstring * json) :=
  match cb with
  | CbNull => [(lit "callback", JNull)]
  | CbUndefined | CbFun _ => []
  end.

Definition json_of_msg (m : Msg) : json :=
  JObj ([(lit "msgId", JNum (msgId m));
         (lit "sql", JStr (sql m));
         (lit "sentTime", JNum (sentTime m))]
        ++ json_of_callback (callback m)
        ++ [(lit "hrstart", JArr [JNum (fst (hrstart m)); JNum (snd (hrstart m))])]).

Definition JSON_stringify (m : Msg) : jsstring := stringify (json_of_msg m).

Definition prepareQuery (sql : jsstring) (callback : Callback) (clock : Clock)
  : Eff (option jsstring) :=
  c <- isConnected ;;
  if negb c then
    (if truthy callback
     then call callback [VError (Error (lit "Database isn't connected."))]
     else ret tt) ;;
    ret None
  else
    let hrstart := hr clock in
    modify (fun st => set_queryCount (js_incr (queryCount st)) st) ;;
    st <- get ;;
    let msg := {| msgId := queryCount st; sql := sql; sentTime := now clock;
                  callback := callback; hrstart := hrstart |} in
    let strMsg := replace_newlines (JSON_stringify msg) in
    log LogPrepare ;;
    modify (fun st => set_currentMessages
                        (tbl_set (KNum (msgId msg)) (ERequest msg) (currentMessages st)) st) ;;
    ret (Some strMsg).

Definition query (sql : jsstring) (callback : Callback) (clock : Clock) : Eff unit :=
  strMsg <- prepareQuery sql callback clock ;;
  match strMsg with
  | None => ret tt
  | Some strMsg =>
      stdin_write (strMsg ++ newline) ;;
      log (LogWritten strMsg)
  end.

(** The [onResponse] closure of [querySync] for promise [p]. *)
Definition onResponse (p : nat) (jsonMsg : JsonMsg.t) : Eff unit :=
  st <- get ;;
  match JsonMsg.msgId jsonMsg with
  | Some i =>
      if i =? queryCount st then
        modify (fun st => set_jsonParser
                            (remove_listener parser_listener_eqb (OnResponse p) (jsonParser st))
                            st) ;;
        match JsonMsg.error jsonMsg with
        | Some text => tell (Reject p (Error text))
        | None =>
            tell (Resolve p match JsonMsg.result jsonMsg with
                            | Some l => VJson (JArr l)
                            | None => VUndefined
                            end)
        end
      else ret tt
  | None => ret tt
  end.

Definition querySync (sql : jsstring) (p : nat) (clock : Clock) : Eff unit :=
  executor p
    (strMsg <- prepareQuery sql CbNull clock ;;
     match strMsg with
     | None => tell (Reject p (Error (lit "Database isn't connected.")))
     | Some strMsg =>
         add_parser_listener (OnResponse p) ;;
         stdin_write (strMsg ++ newline) ;;
         log (LogWritten strMsg)
     end).

Definition disconnect : Eff unit :=
  kill ;;
  modify (set_connected false).

(** ** Events *)

(** ['data'] on the worker's [stdout]: the listeners registered at that
    moment run in order; a [once] listener is taken off before it runs.
    What the pipe feeds to [jsonParser] comes back as [JsonValue] events. *)
Definition stdout_listener (l : StdoutListener) (data : jsstring) : Eff unit :=
  match l with
  | HandshakeStdout cb =>
      w <- the_javaDB ;;
      set_stdout_data (remove_listener stdout_listener_eqb l (stdout_data w)) ;;
      connectCore_stdout cb data
  | PipeToJsonParser => ret tt
  end.

Definition stderr_listener (l : StderrListener) (data : jsstring) : Eff unit :=
  match l with
  | HandshakeStderr cb =>
      w <- the_javaDB ;;
      set_stderr_data (remove_listener stderr_listener_eqb l (stderr_data w)) ;;
      connectCore_stderr cb data
  | ErrorListener => onSQLError data
  end.

Definition parser_listener (l : ParserListener) (jsonMsg : JsonMsg.t) : Eff unit :=
  match l with
  | ResponseListener => onSQLResponse jsonMsg
  | OnResponse p => onResponse p jsonMsg
  end.

Definition emit_stdout_data (data : jsstring) : Eff unit :=
  st <- get ;;
  match javaDB st with
  | Some w => for_each (stdout_data w) (fun l => stdout_listener l data)
  | None => ret tt
  end.

Definition emit_stderr_data (data : jsstring) : Eff unit :=
  st <- get ;;
  match javaDB st with
  | Some w => for_each (stderr_data w) (fun l => stderr_listener l data)
  | None => ret tt
  end.

Definition emit_parser_data (jsonMsg : JsonMsg.t) : Eff unit :=
  st <- get ;;
  for_each (jsonParser st) (fun l => parser_listener l jsonMsg).

(** What can happen to a bridge: the caller calls a method, or the worker
    produces output. *)
Inductive Event : Type :=
| Connect (callback : Callback)
| ConnectAsync (p : nat)
| Query (sql : jsstring) (callback : Callback) (clock : Clock)
| QuerySync (sql : jsstring) (p : nat) (clock : Clock)
| Disconnect
| StdoutData (data : jsstring)
| StderrData (data : jsstring)
| JsonValue (jsonMsg : JsonMsg.t).

Definition handle (ev : Event) : Eff unit :=
  match ev with
  | Connect callback => connect callback
  | ConnectAsync p => connectAsync p
  | Query sql callback clock => query sql callback clock
  | QuerySync sql p clock => querySync sql p clock
  | Disconnect => disconnect
  | StdoutData data => emit_stdout_data data
  | StderrData data => emit_stderr_data data
  | JsonValue jsonMsg => emit_parser_data jsonMsg
  end.

Definition uncaught (c : Completion unit) : list Effect :=
  match c with
  | Normal _ => []
  | Throw e => [Uncaught e]
  end.

(** A run: the events are handled one after the other; an exception that
    leaves a handler is recorded and the object is left as the handler left
    it. *)
Fixpoint run (st : Sybase) (evs : list Event) : Sybase * list Effect :=
  match evs with
  | [] => (st, [])
  | ev :: evs' =>
      match handle ev st with
      | (st', out, c) =>
          match run st' evs' with
          | (st'', out') => (st'', out ++ uncaught c ++ out')
          end
      end
  end.

(* ================================================================== *)
(** * Facts about strings and JSON *)
(* ================================================================== *)

Section CodeUnits.

Lemma cu_eqb_eq (a b : CodeUnit) : cu_eqb a b = true <-> a = b.
Proof.
  destruct a as [h l], b as [h' l']; unfold cu_eqb; cbn [hi lo].
  rewrite andb_true_iff. split.
  - intros [H1 H2]. f_equal; now apply Byte.byte_dec_bl.
  - intros E; injection E as -> ->. split; now apply Byte.byte_dec_lb.
Qed.

Lemma cu_eqb_refl (a : CodeUnit) : cu_eqb a a = true.
Proof. now apply cu_eqb_eq. Qed.

Lemma is_char_eq (c : CodeUnit) (a : ascii) : is_char c a = true -> c = ch a.
Proof. apply cu_eqb_eq. Qed.

(** A code unit outside the first 256 is none of the Latin-1 characters. *)
Lemma is_char_high (c : CodeUnit) (a : ascii) :
  Byte.eqb (hi c) x00 = false -> is_char c a = false.
Proof.
  intros H. unfold is_char, cu_eqb, ch; cbn [hi lo]. now rewrite H.
Qed.

Lemma str_eqb_eq (s t : jsstring) : str_eqb s t = true <-> s = t.
Proof.
  revert t; induction s as [|a s IH]; intros [|b t]; cbn; try easy.
  rewrite andb_true_iff, cu_eqb_eq, IH. split.
  - now intros [-> ->].
  - intros E; now injection E.
Qed.


Lemma surrogate_high (c : CodeUnit) :
  is_leading_surrogate c = true \/ is_trailing_surrogate c = true ->
  Byte.eqb (hi c) x00 = false.
Proof.
  destruct c as [h l]; unfold is_leading_surrogate, is_trailing_surrogate; cbn [hi].
  destruct (Byte.eqb h x00) eqn:E; [|reflexivity].
  apply Byte.byte_dec_bl in E; subst h. cbn. intros [H|H]; discriminate.
Qed.

Lemma is_control_high (c : CodeUnit) :
  Byte.eqb (hi c) x00 = false -> is_control c = false.
Proof. intros H; unfold is_control; now rewrite H. Qed.

End CodeUnits.

(** ** Numbers *)

Section Numbers.

Definition no_digit_head (s : jsstring) : Prop :=
  match s with
  | [] => True
  | c :: _ => digit_of c = None
  end.

Lemma parse_digits_print (d : Decimal.uint) (rest : jsstring) :
  no_digit_head rest ->
  parse_digits (print_uint d ++ rest) = (d, rest).
Proof.
  intros Hrest. induction d; cbn; rewrite ?IHd; try reflexivity.
  destruct rest as [|c rest]; [reflexivity|]. cbn in *. now rewrite Hrest.
Qed.

Definition digit_chars : list CodeUnit :=
  List.map ch ["0"; "1"; "2"; "3"; "4"; "5"; "6"; "7"; "8"; "9"]%char.

Lemma print_uint_head (d : Decimal.uint) :
  d <> Decimal.Nil -> exists c t, print_uint d = c :: t /\ In c digit_chars.
Proof.
  destruct d; [congruence|..]; intros _; cbn [print_uint];
    eexists; eexists; (split; [reflexivity|]); cbn; tauto.
Qed.

Lemma to_int_nonnil (z : Z) :
  match Z.to_int z with
  | Decimal.Pos d | Decimal.Neg d => d <> Decimal.Nil
  end.
Proof.
  destruct z; cbn; try apply DecimalPos.Unsigned.to_uint_nonnil. discriminate.
Qed.

Lemma digits_result (d : Decimal.uint) (rest : jsstring) (neg : bool) :
  d <> Decimal.Nil ->
  match (d, rest) with
  | (Decimal.Nil, _) => None
  | (u, r) =>
      Some (JNum (Z.of_int (if neg then Decimal.Neg u else Decimal.Pos u)), r)
  end = Some (JNum (Z.of_int (if neg then Decimal.Neg d else Decimal.Pos d)), rest).
Proof. destruct d; congruence. Qed.

Lemma parse_number_print (z : Z) (rest : jsstring) :
  no_digit_head rest ->
  parse_number (print_Z z ++ rest) = Some (JNum z, rest).
Proof.
  intros Hrest. unfold print_Z.
  pose proof (DecimalZ.of_to z) as Hz. pose proof (to_int_nonnil z) as Hn.
  destruct (Z.to_int z) as [d|d].
  - destruct (print_uint_head d Hn) as (c & t & E & Hc).
    assert (Hminus : is_char c "-" = false).
    { cbn in Hc. repeat (destruct Hc as [<-|Hc]; [reflexivity|]). destruct Hc. }
    replace (parse_number (print_uint d ++ rest))
      with (match parse_digits (print_uint d ++ rest) with
            | (Decimal.Nil, _) => None
            | (u, r) => Some (JNum (Z.of_int (Decimal.Pos u)), r)
            end).
    + rewrite parse_digits_print by assumption.
      rewrite (digits_result d rest false Hn). now rewrite Hz.
    + rewrite E. cbn [app parse_number]. now rewrite Hminus.
  - cbn [app parse_number]. change (is_char (ch "-") "-") with true. cbn match.
    rewrite parse_digits_print by assumption.
    rewrite (digits_result d rest true Hn). now rewrite Hz.
Qed.

(** What a printed number starts with. *)
Definition number_heads : list CodeUnit := ch "-" :: digit_chars.

Lemma print_Z_head (z : Z) :
  exists c t, print_Z z = c :: t /\ In c number_heads.
Proof.
  unfold print_Z. pose proof (to_int_nonnil z) as Hn.
  destruct (Z.to_int z) as [d|d].
  - destruct (print_uint_head d Hn) as (c & t & E & Hc).
    exists c, t. split; [assumption|now right].
  - eexists; eexists; split; [reflexivity|now left].
Qed.

End Numbers.

(** ** Strings *)

Section Strings.

Lemma unhex_hex_byte (b : byte) :
  unhex_byte (hex_char (Byte.to_N b / 16)) (hex_char (Byte.to_N b mod 16)) = Some b.
Proof. destruct b; vm_compute; reflexivity. Qed.

Lemma parse_unicode_escape (c : CodeUnit) (rest : jsstring) :
  parse_chars (unicode_escape c ++ rest) = cons_char c (parse_chars rest).
Proof.
  destruct c as [h l]. unfold unicode_escape, hex_byte; cbn [hi lo app].
  cbn [parse_chars].
  change (is_char (ch "\") "034") with false.
  change (is_char (ch "\") "\") with true.
  change (is_char (ch "u") "u") with true.
  cbn match. now rewrite !unhex_hex_byte.
Qed.

Lemma short_escape_Some (c : CodeUnit) (e : ascii) :
  short_escape c = Some e ->
  unescape (ch e) = Some c /\ is_char (ch e) "u" = false.
Proof.
  unfold short_escape. intros H.
  repeat match type of H with
         | (if is_char c ?a then _ else _) = _ =>
             let E := fresh "E" in
             destruct (is_char c a) eqn:E;
             [apply is_char_eq in E; subst c; injection H as <-; now split|]
         end.
  discriminate.
Qed.

Lemma short_escape_None (c : CodeUnit) :
  short_escape c = None ->
  is_char c "034" = false /\ is_char c "\" = false /\ is_char c "010" = false.
Proof.
  unfold short_escape. intros H.
  repeat match type of H with
         | (if is_char c ?a then _ else _) = _ =>
             let E := fresh "E" in
             destruct (is_char c a) eqn:E; [discriminate|]
         end.
  auto.
Qed.

(** A code unit that [QuoteJSONString] leaves as it is comes back as it is. *)
Lemma parse_raw (c : CodeUnit) (rest : jsstring) :
  is_char c "034" = false -> is_char c "\" = false -> is_control c = false ->
  parse_chars (c :: rest) = cons_char c (parse_chars rest).
Proof. intros H1 H2 H3. cbn [parse_chars]. now rewrite H1, H2, H3. Qed.

Lemma parse_raw_high (c : CodeUnit) (rest : jsstring) :
  Byte.eqb (hi c) x00 = false ->
  parse_chars (c :: rest) = cons_char c (parse_chars rest).
Proof.
  intros H. apply parse_raw; auto using is_char_high, is_control_high.
Qed.

Lemma parse_quote_chars_aux (n : nat) :
  forall (s rest : jsstring), (List.length s <= n)%nat ->
  parse_chars (quote_chars s ++ ch "034" :: rest) = Some (s, rest).
Proof.
  induction n as [|n IH]; intros s rest Hlen.
  - destruct s; [reflexivity|cbn in Hlen; lia].
  - destruct s as [|c s]; [reflexivity|]. cbn [List.length] in Hlen.
    assert (Hs : forall r, parse_chars (quote_chars s ++ ch "034" :: r) = Some (s, r))
      by (intros r; apply IH; lia).
    cbn [quote_chars]. destruct (short_escape c) as [e|] eqn:He.
    + destruct (short_escape_Some c e He) as [Hu Hnu].
      cbn [app parse_chars].
      change (is_char (ch "\") "034") with false.
      change (is_char (ch "\") "\") with true. cbn match.
      rewrite Hnu, Hu, Hs. reflexivity.
    + destruct (short_escape_None c He) as (Hq & Hb & _).
      destruct (is_control c) eqn:Hc.
      { rewrite <- app_assoc, parse_unicode_escape, Hs. reflexivity. }
      destruct (is_leading_surrogate c) eqn:Hl.
      { destruct s as [|d s'].
        - cbn [app]. rewrite parse_unicode_escape. reflexivity.
        - destruct (is_trailing_surrogate d) eqn:Ht.
          + cbn [app]. rewrite parse_raw by assumption.
            rewrite parse_raw_high by (apply surrogate_high; now right).
            rewrite IH by (cbn in Hlen; lia). reflexivity.
          + rewrite <- app_assoc, parse_unicode_escape, Hs. reflexivity. }
      destruct (is_trailing_surrogate c) eqn:Ht.
      { rewrite <- app_assoc, parse_unicode_escape, Hs. reflexivity. }
      cbn [app]. rewrite parse_raw, Hs by assumption. reflexivity.
Qed.

Lemma parse_quote_chars (s rest : jsstring) :
  parse_chars (quote_chars s ++ ch "034" :: rest) = Some (s, rest).
Proof. now apply (parse_quote_chars_aux (List.length s)). Qed.

End Strings.

(** ** Values *)

Section Values.

Lemma json_induction (P : json -> Prop) :
  P JNull ->
  (forall b, P (JBool b)) ->
  (forall z, P (JNum z)) ->
  (forall s, P (JStr s)) ->
  (forall l, Forall P l -> P (JArr l)) ->
  (forall ms, Forall (fun m => P (snd m)) ms -> P (JObj ms)) ->
  forall j, P j.
Proof.
  intros HN HB HZ HS HA HO. fix IH 1. intros [ | b | z | s | l | ms].
  - exact HN.
  - apply HB.
  - apply HZ.
  - apply HS.
  - apply HA. induction l as [|v l IHl]; constructor; [apply IH|exact IHl].
  - apply HO. induction ms as [|[k v] ms IHms]; constructor; [apply IH|exact IHms].
Qed.

(** The fuel the reader needs for a value. *)
Fixpoint weight (j : json) : nat :=
  match j with
  | JArr l => S (list_sum (List.map (fun v => S (weight v)) l))
  | JObj ms => S (list_sum (List.map (fun m => S (weight (snd m))) ms))
  | _ => 1
  end.

(** One step of each of the three readers. *)
Lemma parse_value_number (c : CodeUnit) (n : nat) (s : jsstring) :
  In c number_heads -> parse_value (S n) (c :: s) = parse_number (c :: s).
Proof.
  intros H. cbn in H.
  repeat (destruct H as [<-|H]; [reflexivity|]). destruct H.
Qed.

Lemma parse_value_string (n : nat) (r : jsstring) :
  parse_value (S n) (ch "034" :: r) =
  match parse_chars r with
  | Some (str, r') => Some (JStr str, r')
  | None => None
  end.
Proof. reflexivity. Qed.

Lemma parse_value_array (n : nat) (d : CodeUnit) (r : jsstring) :
  is_json_ws d = false -> is_char d "]" = false ->
  parse_value (S n) (ch "[" :: d :: r) =
  match parse_elements n (d :: r) with
  | Some (l, r'') => Some (JArr l, r'')
  | None => None
  end.
Proof.
  intros Hw Hd.
  change (parse_value (S n) (ch "[" :: d :: r))
    with (match skip_ws (d :: r) with
          | [] => None
          | d :: r' =>
              if is_char d "]" then Some (JArr [], r')
              else match parse_elements n (d :: r') with
                   | Some (l, r'') => Some (JArr l, r'')
                   | None => None
                   end
          end).
  cbn [skip_ws]. now rewrite Hw, Hd.
Qed.

Lemma parse_value_object (n : nat) (r : jsstring) :
  parse_value (S n) (ch "{" :: ch "034" :: r) =
  match parse_members n (ch "034" :: r) with
  | Some (ms, r'') => Some (JObj ms, r'')
  | None => None
  end.
Proof. reflexivity. Qed.

Lemma parse_elements_step (n : nat) (s : jsstring) :
  parse_elements (S n) s =
  match parse_value n s with
  | None => None
  | Some (v, r) =>
      match skip_ws r with
      | [] => None
      | d :: r' =>
          if is_char d "," then
            match parse_elements n r' with
            | Some (l, r'') => Some (v :: l, r'')
            | None => None
            end
          else if is_char d "]" then Some ([v], r')
          else None
      end
  end.
Proof. reflexivity. Qed.

Lemma parse_members_step (n : nat) (r0 : jsstring) :
  parse_members (S n) (ch "034" :: r0) =
  match parse_chars r0 with
  | None => None
  | Some (k, r1) =>
      match skip_ws r1 with
      | [] => None
      | colon :: r2 =>
          if is_char colon ":" then
            match parse_value n r2 with
            | None => None
            | Some (v, r3) =>
                match skip_ws r3 with
                | [] => None
                | d :: r4 =>
                    if is_char d "," then
                      match parse_members n r4 with
                      | Some (ms, r5) => Some ((k, v) :: ms, r5)
                      | None => None
                      end
                    else if is_char d "}" then Some ([(k, v)], r4)
                    else None
                end
            end
          else None
      end
  end.
Proof. reflexivity. Qed.

(** What the text of a value starts with: never white space, never a
    closing bracket. *)
Lemma stringify_head (v : json) :
  exists c t, stringify v = c :: t /\ is_json_ws c = false /\ is_char c "]" = false.
Proof.
  destruct v as [ | [|] | z | s | l | ms]; cbn [stringify];
    try (eexists; eexists; split; [reflexivity|split; reflexivity]).
  destruct (print_Z_head z) as (c & t & E & Hc). exists c, t. split; [assumption|].
  cbn in Hc. repeat (destruct Hc as [<-|Hc]; [split; reflexivity|]). destruct Hc.
Qed.

Lemma join_commas_cons (p : jsstring) (ps : list jsstring) :
  join_commas (p :: ps) =
  match ps with
  | [] => p
  | _ :: _ => p ++ ch "," :: join_commas ps
  end.
Proof. reflexivity. Qed.

(** The reader meets the punctuation mark [a] that the text has next. *)
Ltac expect a :=
  change (skip_ws (ch a :: ?x)) with (ch a :: x); cbn match;
  change (is_char (ch a) a) with true; cbn match.

(** The property of a value that the reader gives it back. *)
Definition reads_back (v : json) : Prop :=
  forall (n : nat) (rest : jsstring),
    (weight v <= n)%nat -> no_digit_head rest ->
    parse_value n (stringify v ++ rest) = Some (v, rest).

Lemma parse_elements_stringify (l : list json) :
  l <> [] -> Forall reads_back l ->
  forall (n : nat) (rest : jsstring),
    (list_sum (List.map (fun v => S (weight v)) l) <= n)%nat ->
    parse_elements n (join_commas (List.map stringify l) ++ ch "]" :: rest)
    = Some (l, rest).
Proof.
  induction l as [|v l IH]; [congruence|]. intros _ HF n rest Hn.
  inversion HF as [|? ? Hv Hl]; subst. cbn [List.map list_sum] in Hn.
  destruct n as [|n]; [cbn in Hn; lia|]. cbn in Hn.
  rewrite parse_elements_step. cbn [List.map]. rewrite join_commas_cons.
  destruct l as [|v2 l].
  - cbn [List.map]. rewrite Hv by (cbn; auto; lia). reflexivity.
  - cbn [List.map]. rewrite <- app_assoc. cbn [app].
    rewrite Hv by (cbn; auto; lia).
    expect ","%char.
    change (stringify v2 :: List.map stringify l) with (List.map stringify (v2 :: l)).
    rewrite IH; [reflexivity|discriminate|assumption|cbn in *; lia].
Qed.

Lemma parse_members_stringify (ms : list (jsstring * json)) :
  ms <> [] -> Forall (fun m => reads_back (snd m)) ms ->
  forall (n : nat) (rest : jsstring),
    (list_sum (List.map (fun m => S (weight (snd m))) ms) <= n)%nat ->
    parse_members n
      (join_commas
         (List.map (fun m => QuoteJSONString (fst m) ++ ch ":" :: stringify (snd m)) ms)
       ++ ch "}" :: rest)
    = Some (ms, rest).
Proof.
  induction ms as [|[k v] ms IH]; [congruence|]. intros _ HF n rest Hn.
  inversion HF as [|? ? Hv Hl]; subst. cbn [snd] in Hv. cbn [List.map list_sum snd] in Hn.
  destruct n as [|n]; [cbn in Hn; lia|]. cbn in Hn.
  cbn [List.map fst snd]. rewrite join_commas_cons.
  destruct ms as [|m2 ms].
  - cbn [List.map]. unfold QuoteJSONString. cbn [app]. rewrite parse_members_step.
    rewrite <- !app_assoc. cbn [app]. rewrite parse_quote_chars.
    expect ":"%char.
    rewrite Hv by (cbn; auto; lia). reflexivity.
  - cbn [List.map fst snd]. unfold QuoteJSONString at 1. cbn [app].
    rewrite parse_members_step.
    rewrite <- !app_assoc. cbn [app]. rewrite parse_quote_chars.
    expect ":"%char.
    rewrite Hv by (cbn; auto; lia).
    expect ","%char.
    match goal with
    | |- context [parse_members n (join_commas ?parts ++ _)] =>
        change parts
          with (List.map (fun m => QuoteJSONString (fst m) ++ ch ":" :: stringify (snd m))
                  (m2 :: ms))
    end.
    rewrite IH; [reflexivity|discriminate|assumption|cbn in *; lia].
Qed.

Lemma elements_head (l : list json) :
  l <> [] ->
  exists c t, join_commas (List.map stringify l) = c :: t
              /\ is_json_ws c = false /\ is_char c "]" = false.
Proof.
  destruct l as [|v l]; [congruence|]. intros _.
  cbn [List.map]. rewrite join_commas_cons.
  destruct (stringify_head v) as (c & t & E & Hw & Hb). rewrite E.
  destruct (List.map stringify l); eexists; eexists; (split; [reflexivity|auto]).
Qed.

Lemma members_head (ms : list (jsstring * json)) :
  ms <> [] ->
  exists t,
    join_commas
      (List.map (fun m => QuoteJSONString (fst m) ++ ch ":" :: stringify (snd m)) ms)
    = ch "034" :: t.
Proof.
  destruct ms as [|m ms]; [congruence|]. intros _.
  cbn [List.map]. rewrite join_commas_cons.
  destruct (List.map _ ms); eexists; reflexivity.
Qed.

Lemma parse_value_stringify (v : json) : reads_back v.
Proof.
  induction v as [ | b | z | s | l IH | ms IH] using json_induction;
    intros n rest Hn Hrest; (destruct n as [|n]; [cbn in Hn; lia|]).
  - reflexivity.
  - destruct b; reflexivity.
  - cbn [stringify]. destruct (print_Z_head z) as (c & t & E & Hc).
    pose proof (parse_number_print z rest Hrest) as Hp.
    rewrite E in *. cbn [app] in *. now rewrite parse_value_number.
  - cbn [stringify]. unfold QuoteJSONString. cbn [app].
    rewrite parse_value_string, <- app_assoc. cbn [app].
    now rewrite parse_quote_chars.
  - cbn [stringify weight] in *. destruct l as [|v l]; [reflexivity|].
    cbn [app]. rewrite <- app_assoc. cbn [app].
    assert (Hne : v :: l <> []) by discriminate.
    pose proof (parse_elements_stringify (v :: l) Hne IH n rest) as He.
    destruct (elements_head (v :: l) Hne) as (c & t & E & Hw & Hb).
    rewrite E in He |- *. cbn [app] in He |- *.
    rewrite parse_value_array by assumption.
    rewrite He by lia. reflexivity.
  - cbn [stringify weight] in *. destruct ms as [|m ms]; [reflexivity|].
    cbn [app]. rewrite <- app_assoc. cbn [app].
    assert (Hne : m :: ms <> []) by discriminate.
    pose proof (parse_members_stringify (m :: ms) Hne IH n rest) as He.
    destruct (members_head (m :: ms) Hne) as (t & E).
    rewrite E in He |- *. cbn [app] in He |- *.
    rewrite parse_value_object.
    rewrite He by lia. reflexivity.
Qed.

End Values.

(** ** Whole texts *)

Section Texts.

Lemma join_commas_length (parts : list jsstring) :
  (list_sum (List.map (fun p => S (List.length p)) parts)
   <= S (List.length (join_commas parts)))%nat.
Proof.
  induction parts as [|p ps IH]; [cbn; lia|].
  rewrite join_commas_cons. unfold list_sum in *. cbn [List.map fold_right] in *.
  destruct ps as [|q ps]; [cbn; lia|].
  rewrite length_app. cbn [List.length]. lia.
Qed.

Lemma weight_le_length (v : json) : (weight v <= List.length (stringify v))%nat.
Proof.
  induction v as [ | b | z | s | l IH | ms IH] using json_induction.
  - cbn; lia.
  - destruct b; cbn; lia.
  - cbn [stringify weight]. destruct (print_Z_head z) as (c & t & E & _).
    rewrite E. cbn; lia.
  - cbn; lia.
  - cbn [stringify weight List.length]. rewrite length_app. cbn [List.length].
    assert (list_sum (List.map (fun v => S (weight v)) l)
            <= list_sum (List.map (fun x => S (List.length (stringify x))) l))%nat.
    { induction IH as [|v l Hv _ IHl]; [cbn; lia|].
      unfold list_sum in *. cbn [List.map fold_right] in *. lia. }
    pose proof (join_commas_length (List.map stringify l)) as H'.
    rewrite map_map in H'. lia.
  - cbn [stringify weight List.length]. rewrite length_app. cbn [List.length].
    assert (list_sum (List.map (fun m => S (weight (snd m))) ms)
            <= list_sum
                 (List.map
                    (fun x => S (List.length (QuoteJSONString (fst x) ++ ch ":" :: stringify (snd x))))
                    ms))%nat.
    { induction IH as [|m ms' Hm _ IHl]; [cbn; lia|].
      unfold list_sum in *. cbn [List.map fold_right] in *.
      rewrite length_app. cbn [List.length]. lia. }
    pose proof (join_commas_length
                  (List.map (fun m => QuoteJSONString (fst m) ++ ch ":" :: stringify (snd m)) ms))
      as H'.
    rewrite map_map in H'. lia.
Qed.

(** [JSON.stringify] followed by the reader is the identity, whatever white
    space follows the text. *)
Lemma JSON_parse_stringify (v : json) (tail : jsstring) :
  skip_ws tail = [] ->
  JSON_parse (stringify v ++ tail) = Some v.
Proof.
  intros Htail. unfold JSON_parse.
  rewrite parse_value_stringify.
  - now rewrite Htail.
  - pose proof (weight_le_length v). rewrite length_app. lia.
  - destruct tail as [|c tail]; [exact I|]. cbn in *.
    unfold is_json_ws in Htail.
    destruct (is_char c " ") eqn:E1; [apply is_char_eq in E1; now subst|].
    destruct (is_char c "009") eqn:E2; [apply is_char_eq in E2; now subst|].
    destruct (is_char c "010") eqn:E3; [apply is_char_eq in E3; now subst|].
    destruct (is_char c "013") eqn:E4; [apply is_char_eq in E4; now subst|].
    discriminate.
Qed.

(** *** No raw line feed *)

Definition no_lf (s : jsstring) : bool :=
  forallb (fun c => negb (is_char c "010")) s.

Lemma no_lf_app (s t : jsstring) : no_lf (s ++ t) = no_lf s && no_lf t.
Proof. apply forallb_app. Qed.

Lemma no_lf_cons (c : CodeUnit) (s : jsstring) :
  no_lf (c :: s) = negb (is_char c "010") && no_lf s.
Proof. reflexivity. Qed.

Lemma no_lf_In (s : jsstring) : no_lf s = true -> ~ In (ch "010") s.
Proof.
  unfold no_lf. rewrite forallb_forall. intros H Hin.
  specialize (H _ Hin). discriminate.
Qed.

Lemma replace_newlines_no_lf (s : jsstring) :
  no_lf s = true -> replace_newlines s = s.
Proof.
  induction s as [|c s IH]; [reflexivity|]. cbn.
  destruct (is_char c "010"); [discriminate|]. cbn. intros H. now rewrite IH.
Qed.

Lemma no_lf_hex_byte (b : byte) : no_lf (hex_byte b) = true.
Proof. destruct b; reflexivity. Qed.

Lemma no_lf_unicode_escape (c : CodeUnit) : no_lf (unicode_escape c) = true.
Proof.
  unfold unicode_escape.
  change (no_lf (hex_byte (hi c) ++ hex_byte (lo c)) = true).
  now rewrite no_lf_app, !no_lf_hex_byte.
Qed.

Lemma no_lf_short_escape (c : CodeUnit) (e : ascii) :
  short_escape c = Some e -> is_char (ch e) "010" = false.
Proof.
  unfold short_escape. intros H.
  repeat match type of H with
         | (if ?b then _ else _) = _ => destruct b; [now injection H as <-|]
         end.
  discriminate.
Qed.

Lemma no_lf_quote_chars_aux (n : nat) :
  forall s : jsstring, (List.length s <= n)%nat -> no_lf (quote_chars s) = true.
Proof.
  induction n as [|n IH]; intros s Hlen.
  - destruct s; [reflexivity|cbn in Hlen; lia].
  - destruct s as [|c s]; [reflexivity|]. cbn [List.length] in Hlen.
    assert (Hs : no_lf (quote_chars s) = true) by (apply IH; lia).
    cbn [quote_chars]. destruct (short_escape c) as [e|] eqn:He.
    + rewrite !no_lf_cons, (no_lf_short_escape c e He), Hs. reflexivity.
    + destruct (short_escape_None c He) as (_ & _ & Hnl).
      destruct (is_control c).
      { now rewrite no_lf_app, no_lf_unicode_escape. }
      destruct (is_leading_surrogate c).
      { destruct s as [|d s'].
        - apply no_lf_unicode_escape.
        - destruct (is_trailing_surrogate d) eqn:Ht.
          + rewrite !no_lf_cons, Hnl.
            rewrite (is_char_high d) by (apply surrogate_high; now right).
            rewrite IH by (cbn in Hlen; lia). reflexivity.
          + now rewrite no_lf_app, no_lf_unicode_escape. }
      destruct (is_trailing_surrogate c).
      { now rewrite no_lf_app, no_lf_unicode_escape. }
      rewrite no_lf_cons, Hnl, Hs. reflexivity.
Qed.

Lemma no_lf_QuoteJSONString (s : jsstring) : no_lf (QuoteJSONString s) = true.
Proof.
  unfold QuoteJSONString.
  change (no_lf (quote_chars s ++ [ch "034"]) = true).
  rewrite no_lf_app, (no_lf_quote_chars_aux (List.length s)) by lia. reflexivity.
Qed.

Lemma no_lf_print_uint (d : Decimal.uint) : no_lf (print_uint d) = true.
Proof. induction d; cbn; auto. Qed.

Lemma no_lf_print_Z (z : Z) : no_lf (print_Z z) = true.
Proof. unfold print_Z. destruct (Z.to_int z); cbn; apply no_lf_print_uint. Qed.

Lemma no_lf_join_commas (parts : list jsstring) :
  Forall (fun p => no_lf p = true) parts -> no_lf (join_commas parts) = true.
Proof.
  induction 1 as [|p ps Hp _ IH]; [reflexivity|].
  rewrite join_commas_cons. destruct ps; [assumption|].
  rewrite no_lf_app, Hp. exact IH.
Qed.

(** [JSON.stringify] never leaves a raw line feed in its text. *)
Lemma no_lf_stringify (v : json) : no_lf (stringify v) = true.
Proof.
  induction v as [ | b | z | s | l IH | ms IH] using json_induction.
  - reflexivity.
  - destruct b; reflexivity.
  - apply no_lf_print_Z.
  - apply no_lf_QuoteJSONString.
  - cbn [stringify].
    change (no_lf (join_commas (List.map stringify l) ++ [ch "]"]) = true).
    rewrite no_lf_app, no_lf_join_commas; [reflexivity|].
    apply Forall_map. exact IH.
  - cbn [stringify].
    change (no_lf (join_commas
                     (List.map (fun m => QuoteJSONString (fst m) ++ ch ":" :: stringify (snd m)) ms)
                   ++ [ch "}"]) = true).
    rewrite no_lf_app, no_lf_join_commas; [reflexivity|].
    apply Forall_map. eapply Forall_impl; [|exact IH]. intros m Hm. cbn beta.
    rewrite no_lf_app, no_lf_QuoteJSONString. exact Hm.
Qed.

End Texts.

(* ================================================================== *)
(** * Facts about the bridge *)
(* ================================================================== *)

(** ** What a trace shows *)

(** The lines written to the worker's input. *)
Definition written_lines (out : list Effect) : list jsstring :=
  flat_map (fun e => match e with StdinWrite line => [line] | _ => [] end) out.

(** The effects that reach a caller: a call of one of its functions, or the
    settling of one of its promises. *)
Definition delivers (e : Effect) : bool :=
  match e with
  | Call _ _ | Resolve _ _ | Reject _ _ => true
  | _ => false
  end.

Definition deliveries (out : list Effect) : list Effect := filter delivers out.

(** The [msgId] a line carries, as the worker reads it. *)
Definition line_msgId (line : jsstring) : option Z :=
  match JSON_parse line with
  | Some v =>
      match get_field "msgId" v with
      | Some (JNum z) => Some z
      | _ => None
      end
  | None => None
  end.

(** The [msg] that a submission builds in state [st]. *)
Definition next_msg (st : Sybase) (sql : jsstring) (callback : Callback) (clock : Clock)
  : Msg :=
  {| msgId := js_incr (queryCount st); sql := sql; sentTime := now clock;
     callback := callback; hrstart := hr clock |}.

(** The object after the submission that builds [msg]. *)
Definition submitted (msg : Msg) (st : Sybase) : Sybase :=
  set_currentMessages
    (tbl_set (KNum (msgId msg)) (ERequest msg) (currentMessages st))
    (set_queryCount (msgId msg) st).

Definition not_connected : JSError := Error (lit "Database isn't connected.").

Section Basics.

Lemma set_currentMessages_same (st : Sybase) :
  set_currentMessages (currentMessages st) st = st.
Proof. now destruct st. Qed.

Lemma tbl_delete_absent (k : PropertyKey) (t : Table) :
  tbl_get k t = None -> tbl_delete k t = t.
Proof.
  induction t as [|[k' e] t IH]; [reflexivity|]. cbn.
  destruct (key_eqb k k'); [discriminate|]. intros H. now rewrite IH.
Qed.

Lemma key_eqb_refl (k : PropertyKey) : key_eqb k k = true.
Proof. destruct k; cbn; [apply Z.eqb_refl|apply String.eqb_refl]. Qed.

Lemma key_eqb_eq (a b : PropertyKey) : key_eqb a b = true -> a = b.
Proof.
  destruct a, b; cbn; try discriminate.
  - intros H. apply Z.eqb_eq in H. now subst.
  - intros H. apply String.eqb_eq in H. now subst.
Qed.

(** The text of a request has no raw line feed, so the [replace] of
    [prepareQuery] finds nothing to replace. *)
Lemma replace_newlines_stringify (m : Msg) :
  replace_newlines (JSON_stringify m) = JSON_stringify m.
Proof. apply replace_newlines_no_lf, no_lf_stringify. Qed.

Lemma prepareQuery_connected (st : Sybase) (sql : jsstring) (cb : Callback) (clock : Clock) :
  connected st = true ->
  prepareQuery sql cb clock st =
  (submitted (next_msg st sql cb clock) st,
   if logs st then [ConsoleLog LogPrepare] else [],
   Normal (Some (JSON_stringify (next_msg st sql cb clock)))).
Proof.
  intros Hc. cbv [prepareQuery bind isConnected get ret modify log].
  rewrite Hc. cbn [negb set_queryCount logs queryCount].
  rewrite replace_newlines_stringify.
  destruct (logs st); reflexivity.
Qed.

Lemma prepareQuery_disconnected (st : Sybase) (sql : jsstring) (cb : Callback) (clock : Clock) :
  connected st = false ->
  prepareQuery sql cb clock st =
  (st,
   match cb with
   | CbFun f => [Call f [VError not_connected]]
   | _ => []
   end,
   Normal None).
Proof.
  intros Hc. cbv [prepareQuery bind isConnected get ret].
  rewrite Hc. destruct cb; reflexivity.
Qed.

End Basics.

(** ** Submission *)

Definition effects_of {A : Type} (r : Sybase * list Effect * Completion A) : list Effect :=
  snd (fst r).

Definition state_of {A : Type} (r : Sybase * list Effect * Completion A) : Sybase :=
  fst (fst r).

Definition completion_of {A : Type} (r : Sybase * list Effect * Completion A)
  : Completion A :=
  snd r.

Definition log_lines (st : Sybase) (what : LogLine) : list Effect :=
  if logs st then [ConsoleLog what] else [].

Section Submission.

Variables (st : Sybase) (sql : jsstring) (clock : Clock).

Lemma query_connected (cb : Callback) (w : ChildProcess) :
  connected st = true -> javaDB st = Some w ->
  let msg := next_msg st sql cb clock in
  query sql cb clock st =
  (submitted msg st,
   log_lines st LogPrepare
   ++ [StdinWrite (JSON_stringify msg ++ newline)]
   ++ log_lines st (LogWritten (JSON_stringify msg)),
   Normal tt).
Proof.
  intros Hc Hw msg. unfold query, bind at 1.
  rewrite prepareQuery_connected by assumption. fold msg.
  cbv [stdin_write the_javaDB bind get ret tell log submitted
       set_currentMessages set_queryCount javaDB logs log_lines].
  fold (javaDB st) (logs st). rewrite Hw.
  destruct (logs st); reflexivity.
Qed.

Lemma querySync_connected (p : nat) (w : ChildProcess) :
  connected st = true -> javaDB st = Some w ->
  let msg := next_msg st sql CbNull clock in
  querySync sql p clock st =
  (set_jsonParser (jsonParser st ++ [OnResponse p]) (submitted msg st),
   log_lines st LogPrepare
   ++ [StdinWrite (JSON_stringify msg ++ newline)]
   ++ log_lines st (LogWritten (JSON_stringify msg)),
   Normal tt).
Proof.
  intros Hc Hw msg. unfold querySync, executor, bind at 1.
  rewrite prepareQuery_connected by assumption. fold msg.
  cbv [stdin_write the_javaDB bind get ret tell log submitted add_parser_listener modify
       set_currentMessages set_queryCount set_jsonParser javaDB logs log_lines jsonParser].
  fold (javaDB st) (logs st) (jsonParser st). rewrite Hw.
  destruct (logs st); reflexivity.
Qed.

Lemma query_disconnected (cb : Callback) :
  connected st = false ->
  query sql cb clock st =
  (st, match cb with CbFun f => [Call f [VError not_connected]] | _ => [] end, Normal tt).
Proof.
  intros Hc. unfold query, bind.
  rewrite prepareQuery_disconnected by assumption.
  destruct cb; reflexivity.
Qed.

Lemma querySync_disconnected (p : nat) :
  connected st = false ->
  querySync sql p clock st = (st, [Reject p not_connected], Normal tt).
Proof.
  intros Hc. unfold querySync, executor, bind.
  now rewrite prepareQuery_disconnected by assumption.
Qed.

End Submission.

Lemma written_lines_app (a b : list Effect) :
  written_lines (a ++ b) = written_lines a ++ written_lines b.
Proof. apply flat_map_app. Qed.

Lemma written_lines_log (st : Sybase) (what : LogLine) :
  written_lines (log_lines st what) = [].
Proof. unfold log_lines. now destruct (logs st). Qed.

Lemma deliveries_app (a b : list Effect) :
  deliveries (a ++ b) = deliveries a ++ deliveries b.
Proof. apply filter_app. Qed.

Lemma deliveries_log (st : Sybase) (what : LogLine) :
  deliveries (log_lines st what) = [].
Proof. unfold log_lines. now destruct (logs st). Qed.

(** The worker reads a request back as the object [JSON.stringify] saw. *)
Lemma JSON_parse_request (m : Msg) :
  JSON_parse (JSON_stringify m) = Some (json_of_msg m)
  /\ JSON_parse (JSON_stringify m ++ newline) = Some (json_of_msg m).
Proof.
  split.
  - rewrite <- (app_nil_r (JSON_stringify m)). now apply JSON_parse_stringify.
  - now apply JSON_parse_stringify.
Qed.

Lemma request_fields (m : Msg) :
  get_field "msgId" (json_of_msg m) = Some (JNum (msgId m))
  /\ get_field "sql" (json_of_msg m) = Some (JStr (sql m))
  /\ get_field "sentTime" (json_of_msg m) = Some (JNum (sentTime m)).
Proof. unfold json_of_msg. destruct (callback m); repeat split; reflexivity. Qed.

(** ** Concrete bridges, for the examples *)

Definition example_config : Config :=
  {| host := lit "db.example"; port := lit "5000"; database := lit "pubs";
     username := lit "sa"; password := lit "secret";
     pathToJavaBridge := lit "JavaSybaseLink.jar"; encoding := lit "utf8" |}.

Definition example_clock : Clock := {| now := 1700000000000; hr := (5, 600) |}.

(** A bridge just built, and the same bridge after a successful handshake. *)
Definition fresh_bridge : Sybase := new_Sybase example_config false false.

Definition ready_bridge : Sybase :=
  fst (run fresh_bridge [Connect (CbFun 0); StdoutData (lit "connected")]).

Definition ready_worker : ChildProcess :=
  {| stdout_data := [PipeToJsonParser]; stderr_data := [ErrorListener] |}.

(** A line of the wire that carries the text [sql]: one line, closed by the
    only line feed in it, that the worker reads as an object whose [sql] is
    that text. *)
Definition carries_sql (line sql : jsstring) : Prop :=
  exists strMsg v,
    line = strMsg ++ newline
    /\ ~ In (ch "010") strMsg
    /\ JSON_parse line = Some v
    /\ get_field "sql" v = Some (JStr sql).

(** ** Claims on submission *)

(** C7.  A submission on a bridge that is not connected hands a
    not-connected error to the caller on the channel of the mode used (the
    callback for [query], the promise for [querySync]) and does nothing else:
    the object is unchanged, so no identifier is allocated and no request
    enters the table, and nothing is written to the worker. *)
Theorem not_connected_submission
  (st : Sybase) (sql : jsstring) (f p : nat) (clock : Clock) :
  connected st = false ->
  query sql (CbFun f) clock st = (st, [Call f [VError not_connected]], Normal tt)
  /\ querySync sql p clock st = (st, [Reject p not_connected], Normal tt).
Proof.
  intros Hc. split.
  - now rewrite query_disconnected.
  - now apply querySync_disconnected.
Qed.

Lemma not_connected_submission_witness :
  connected fresh_bridge = false
  /\ query (lit "select 1") (CbFun 1) example_clock fresh_bridge
     = (fresh_bridge, [Call 1 [VError not_connected]], Normal tt)
  /\ querySync (lit "select 1") 2 example_clock fresh_bridge
     = (fresh_bridge, [Reject 2 not_connected], Normal tt).
Proof.
  split; [reflexivity|].
  apply (not_connected_submission fresh_bridge (lit "select 1") 1 2 example_clock).
  reflexivity.
Defined.

Lemma request_carries_sql (m : Msg) :
  carries_sql (JSON_stringify m ++ newline) (sql m).
Proof.
  exists (JSON_stringify m), (json_of_msg m). repeat split.
  - apply no_lf_In, no_lf_stringify.
  - apply JSON_parse_request.
  - apply request_fields.
Qed.

(** C8.  Round trip of the SQL text: on a connected bridge, whatever the
    text, line breaks included, each mode of submission writes one line
    whose only line feed is the one that ends it, and reading that line back
    as JSON gives an object whose [sql] is the text that was submitted. *)
Theorem sql_round_trip
  (st : Sybase) (w : ChildProcess) (sql : jsstring) (cb : Callback) (p : nat)
  (clock : Clock) :
  connected st = true -> javaDB st = Some w ->
  (exists line, written_lines (effects_of (query sql cb clock st)) = [line]
                /\ carries_sql line sql)
  /\ (exists line, written_lines (effects_of (querySync sql p clock st)) = [line]
                   /\ carries_sql line sql).
Proof.
  intros Hc Hw. split.
  - rewrite (query_connected st sql clock cb w Hc Hw). cbn [effects_of fst snd].
    rewrite !written_lines_app, !written_lines_log. cbn.
    eexists; split; [reflexivity|].
    apply (request_carries_sql (next_msg st sql cb clock)).
  - rewrite (querySync_connected st sql clock p w Hc Hw). cbn [effects_of fst snd].
    rewrite !written_lines_app, !written_lines_log. cbn.
    eexists; split; [reflexivity|].
    apply (request_carries_sql (next_msg st sql CbNull clock)).
Qed.

Definition two_line_sql : jsstring := lit "select 1" ++ newline ++ lit "from t".

Lemma sql_round_trip_witness :
  connected ready_bridge = true
  /\ javaDB ready_bridge = Some ready_worker
  /\ (exists line,
         written_lines
           (effects_of (query two_line_sql (CbFun 1) example_clock ready_bridge)) = [line]
         /\ carries_sql line two_line_sql)
  /\ (exists line,
         written_lines
           (effects_of (querySync two_line_sql 2 example_clock ready_bridge)) = [line]
         /\ carries_sql line two_line_sql).
Proof.
  split; [reflexivity|]. split; [reflexivity|].
  apply (sql_round_trip ready_bridge ready_worker two_line_sql (CbFun 1) 2 example_clock);
    reflexivity.
Defined.

(** The properties of the request object that reach the wire. *)
Definition wire_fields (id : Z) (sql : jsstring) (cb : Callback) (clock : Clock) : json :=
  JObj ([(lit "msgId", JNum id); (lit "sql", JStr sql); (lit "sentTime", JNum (now clock))]
        ++ match cb with
           | CbNull => [(lit "callback", JNull)]
           | CbUndefined | CbFun _ => []
           end
        ++ [(lit "hrstart", JArr [JNum (fst (hr clock)); JNum (snd (hr clock))])]).

(** C4, as the code has it.  For every query submitted while connected, what
    is written to the worker's input is one line: a text without line feed
    followed by one line feed, and the text is a JSON object with the fields
    [msgId] (the identifier allocated, the counter after its increment),
    [sql] (the query text), [sentTime] (the clock reading) and also [hrstart]
    (the pair of the high-resolution clock); a [callback] that is [null]
    appears as a fifth field, a function or no callback leaves no field. *)
Theorem query_wire_line
  (st : Sybase) (w : ChildProcess) (sql : jsstring) (cb : Callback) (clock : Clock) :
  connected st = true -> javaDB st = Some w ->
  exists strMsg,
    written_lines (effects_of (query sql cb clock st)) = [strMsg ++ newline]
    /\ ~ In (ch "010") strMsg
    /\ JSON_parse strMsg = Some (wire_fields (js_incr (queryCount st)) sql cb clock).
Proof.
  intros Hc Hw. rewrite (query_connected st sql clock cb w Hc Hw).
  cbn [effects_of fst snd]. rewrite !written_lines_app, !written_lines_log. cbn [written_lines flat_map app].
  exists (JSON_stringify (next_msg st sql cb clock)). repeat split.
  - apply no_lf_In, no_lf_stringify.
  - destruct (JSON_parse_request (next_msg st sql cb clock)) as [H _].
    rewrite H. reflexivity.
Qed.

Lemma query_wire_line_witness :
  connected ready_bridge = true
  /\ javaDB ready_bridge = Some ready_worker
  /\ exists strMsg,
       written_lines
         (effects_of (query two_line_sql (CbFun 1) example_clock ready_bridge))
       = [strMsg ++ newline]
       /\ ~ In (ch "010") strMsg
       /\ JSON_parse strMsg
          = Some (wire_fields (js_incr (queryCount ready_bridge)) two_line_sql (CbFun 1)
                    example_clock).
Proof.
  split; [reflexivity|]. split; [reflexivity|].
  apply (query_wire_line ready_bridge ready_worker two_line_sql (CbFun 1) example_clock);
    reflexivity.
Defined.

(** C4 as stated fails: the line of a query carries a fourth field,
    [hrstart], besides [msgId], [sql] and [sentTime]. *)
Lemma query_wire_line_has_hrstart :
  exists line v,
    written_lines
      (effects_of (query (lit "select 1") (CbFun 1) example_clock ready_bridge)) = [line]
    /\ JSON_parse line = Some v
    /\ field_names v = [lit "msgId"; lit "sql"; lit "sentTime"; lit "hrstart"]
    /\ field_names v <> [lit "msgId"; lit "sql"; lit "sentTime"].
Proof.
  eexists; eexists. split; [vm_compute; reflexivity|].
  split; [vm_compute; reflexivity|].
  split; [vm_compute; reflexivity|].
  vm_compute. discriminate.
Qed.

(** ** Response dispatch *)

Section ResponseDispatch.

Variables (st : Sybase) (jsonMsg : JsonMsg.t).

Let key : PropertyKey := key_of_msgId (JsonMsg.msgId jsonMsg).

(** The payload handed to the continuation: a sequence of one element is
    replaced by that element. *)
Definition unwrapped (l : list json) : Value :=
  match l with
  | [x] => VJson x
  | _ => VJson (JArr l)
  end.

Definition failure_of (jsonMsg : JsonMsg.t) : Value :=
  match JsonMsg.error jsonMsg with
  | Some text => VError (Error text)
  | None => VNull
  end.

Definition timing_lines (st : Sybase) (what : LogLine) : list Effect :=
  if logTiming st then log_lines st what else [].

(** A response for a pending request: the entry leaves the table and its
    callback is called once with the failure, if any, and the payload. *)
Lemma onSQLResponse_pending (m : Msg) (l : list json) :
  tbl_get key (currentMessages st) = Some (ERequest m) ->
  JsonMsg.result jsonMsg = Some l ->
  onSQLResponse jsonMsg st =
  match callback m with
  | CbFun f =>
      (set_currentMessages (tbl_delete key (currentMessages st)) st,
       timing_lines st (LogTiming (Some (sql m)))
       ++ [Call f [failure_of jsonMsg; unwrapped l]],
       Normal tt)
  | _ =>
      (set_currentMessages (tbl_delete key (currentMessages st)) st,
       timing_lines st (LogTiming (Some (sql m))),
       Throw (TypeError "cb is not a function"))
  end.
Proof.
  intros Hget Hres. cbv [onSQLResponse bind get modify ret throw log call tell].
  fold key. rewrite Hget, Hres.
  cbv [timing_lines log_lines failure_of unwrapped entry_callback entry_sql].
  destruct l as [|x [|y l']], (callback m), (logTiming st);
    cbn -[tbl_delete]; destruct (logs st); reflexivity.
Qed.

(** A response without [result]: the entry, if any, leaves the table and a
    [TypeError] is raised before any callback is called. *)
Lemma onSQLResponse_missing_result :
  JsonMsg.result jsonMsg = None ->
  exists what,
    onSQLResponse jsonMsg st =
    (set_currentMessages (tbl_delete key (currentMessages st)) st, [],
     Throw (TypeError what)).
Proof.
  intros Hres. cbv [onSQLResponse bind get modify ret throw].
  rewrite Hres. eexists. reflexivity.
Qed.

(** C1, as the code has it.  For every inbound message whose [msgId] has no
    entry in the table, [onSQLResponse] calls no continuation and leaves the
    object as it was, but it does raise an error: a [TypeError], on
    [result.length] when [result] is missing and on [request.hrstart]
    otherwise. *)
Theorem onSQLResponse_unknown_msgId :
  tbl_get key (currentMessages st) = None ->
  exists what, onSQLResponse jsonMsg st = (st, [], Throw (TypeError what)).
Proof.
  intros Hget. cbv [onSQLResponse bind get modify ret throw].
  fold key. rewrite Hget, (tbl_delete_absent key _ Hget), set_currentMessages_same.
  destruct (JsonMsg.result jsonMsg) as [[|x [|y l]]|]; eexists; reflexivity.
Qed.

End ResponseDispatch.

Definition stray_response : JsonMsg.t :=
  JsonMsg.mk (Some 7) (Some [JArr [JNum 1]]) (Some 10) (Some 20) None.

Lemma onSQLResponse_unknown_msgId_witness :
  tbl_get (key_of_msgId (JsonMsg.msgId stray_response)) (currentMessages ready_bridge) = None
  /\ exists what,
       onSQLResponse stray_response ready_bridge = (ready_bridge, [], Throw (TypeError what)).
Proof.
  split; [reflexivity|].
  apply (onSQLResponse_unknown_msgId ready_bridge stray_response). reflexivity.
Defined.

(** ** Error dispatch *)

(** The table entries of a list of pending requests. *)
Definition table_of (pending : list (PropertyKey * Msg)) : Table :=
  List.map (fun km => (fst km, ERequest (snd km))) pending.

Definition callbacks_of (pending : list (PropertyKey * Msg)) : list Callback :=
  List.map (fun km => callback (snd km)) pending.

Definition failures (data : jsstring) (fs : list nat) : list Effect :=
  List.map (fun f => Call f [VError (Error data)]) fs.

Section ErrorDispatch.

Variables (data : jsstring).

Lemma for_each_functions (fs : list nat) (rest : list Callback) (st : Sybase) :
  for_each (List.map CbFun fs ++ rest) (fun cb => call cb [VError (Error data)]) st =
  match for_each rest (fun cb => call cb [VError (Error data)]) st with
  | (st', out, c) => (st', failures data fs ++ out, c)
  end.
Proof.
  induction fs as [|f fs IH]; cbn [List.map app failures].
  - now destruct (for_each rest _ st) as [[st' out] c].
  - cbn [for_each]. unfold bind at 1. cbn [call tell]. rewrite IH.
    now destruct (for_each rest _ st) as [[st' out] c].
Qed.

Lemma entry_callbacks_table_of (pending : list (PropertyKey * Msg)) :
  List.map (fun kv => entry_callback (snd kv)) (table_of pending) = callbacks_of pending.
Proof. unfold table_of, callbacks_of. rewrite map_map. reflexivity. Qed.

(** A fault when every entry is a request with a function for callback:
    every callback is called once with the failure, in the order of the
    table, and the table is empty afterwards. *)
Lemma onSQLError_requests
  (st : Sybase) (pending : list (PropertyKey * Msg)) (fs : list nat) :
  currentMessages st = table_of pending ->
  callbacks_of pending = List.map CbFun fs ->
  onSQLError data st = (set_currentMessages [] st, failures data fs, Normal tt).
Proof.
  intros Ht Hcb. cbv [onSQLError bind get modify].
  rewrite Ht, entry_callbacks_table_of, Hcb.
  rewrite <- (app_nil_r (List.map CbFun fs)), for_each_functions.
  cbn. now rewrite !app_nil_r.
Qed.

(** C2, as the code has it.  The table of a bridge starts with the entry
    [cat], which is no request.  While it is there, a fault with [K] pending
    requests (callbacks [fs]) calls the [K] callbacks once each with the
    failure built from the error text and empties the table, and then raises
    a [TypeError]: the loop also calls the [callback] of [cat], which is
    [undefined]. *)
Theorem onSQLError_with_cat
  (st : Sybase) (pending : list (PropertyKey * Msg)) (fs : list nat) :
  currentMessages st = table_of pending ++ [(KName "cat", ENumber 1)] ->
  callbacks_of pending = List.map CbFun fs ->
  onSQLError data st =
  (set_currentMessages [] st, failures data fs, Throw (TypeError "cb is not a function")).
Proof.
  intros Ht Hcb. cbv [onSQLError bind get modify].
  rewrite Ht, map_app, entry_callbacks_table_of, Hcb, for_each_functions.
  cbn. now rewrite !app_nil_r.
Qed.

End ErrorDispatch.

(** The ready bridge with two queries pending. *)
Definition busy_events : list Event :=
  [Query (lit "select 1") (CbFun 1) example_clock;
   Query (lit "select 2") (CbFun 2) example_clock].

Definition busy_bridge : Sybase := fst (run ready_bridge busy_events).

Definition busy_pending : list (PropertyKey * Msg) :=
  [(KNum 1, {| msgId := 1; sql := lit "select 1"; sentTime := now example_clock;
               callback := CbFun 1; hrstart := hr example_clock |});
   (KNum 2, {| msgId := 2; sql := lit "select 2"; sentTime := now example_clock;
               callback := CbFun 2; hrstart := hr example_clock |})].

Lemma onSQLError_with_cat_witness :
  currentMessages busy_bridge = table_of busy_pending ++ [(KName "cat", ENumber 1)]
  /\ callbacks_of busy_pending = List.map CbFun [1; 2]%nat
  /\ onSQLError (lit "worker died") busy_bridge =
     (set_currentMessages [] busy_bridge, failures (lit "worker died") [1; 2]%nat,
      Throw (TypeError "cb is not a function")).
Proof.
  split; [reflexivity|]. split; [reflexivity|].
  apply (onSQLError_with_cat (lit "worker died") busy_bridge busy_pending [1; 2]%nat);
    reflexivity.
Defined.

(** The same on a bridge just connected, with nothing pending: the first
    fault raises the [TypeError] and no callback is there to be called. *)
Lemma first_fault_on_ready_bridge :
  run ready_bridge [StderrData (lit "worker died")] =
  (set_currentMessages [] ready_bridge, [Uncaught (TypeError "cb is not a function")]).
Proof. reflexivity. Qed.

(** ** The handshake *)

(** The object once the handshake has succeeded. *)
Definition handshaken (st : Sybase) : Sybase :=
  {| connected := true; config := config st; logTiming := logTiming st; logs := logs st;
     queryCount := queryCount st; currentMessages := currentMessages st;
     jsonParser := jsonParser st ++ [ResponseListener];
     javaDB := Some ready_worker |}.

(** The object once the handshake has failed on [stderr]. *)
Definition deaf (st : Sybase) : Sybase :=
  set_javaDB (Some {| stdout_data := []; stderr_data := [] |}) st.

Section Handshake.

Variables (st : Sybase) (f : nat).

(** The worker says [connected]: the callback gets that text, the bridge is
    connected, and the handshake listener on [stderr] is gone. *)
Lemma handshake_connected (text : jsstring) :
  str_eqb (trim text) (lit "connected") = true ->
  run st [Connect (CbFun f); StdoutData text] =
  (handshaken st, [Spawn (config st); Call f [VNull; VJson (JStr (lit "connected"))]]).
Proof.
  intros H. pose proof H as E. apply str_eqb_eq in E.
  cbv -[trim str_eqb lit Nat.eqb]. rewrite Nat.eqb_refl. cbv -[trim str_eqb lit Nat.eqb].
  rewrite H. cbv -[trim str_eqb lit Nat.eqb]. now rewrite E.
Qed.

(** The worker says something on [stderr] first: it is killed, the callback
    gets the error, and the handshake listener on [stdout] is gone, so what
    the worker says later on [stdout] reaches nobody. *)
Lemma handshake_stderr_first (data text : jsstring) :
  run st [Connect (CbFun f); StderrData data; StdoutData text] =
  (deaf st, [Spawn (config st); Kill; Call f [VError (Error data); VNull]]).
Proof.
  cbv -[trim str_eqb lit Nat.eqb]. rewrite Nat.eqb_refl. reflexivity.
Qed.

(** C3, as the code has it.  When the first output of the worker is not
    [connected], the callback gets an error with that text, but the
    handshake listener on [stderr] stays: if the worker then writes to
    [stderr], it is killed and the callback is called a second time. *)
Theorem handshake_failure_calls_back_twice (text data : jsstring) :
  str_eqb (trim text) (lit "connected") = false ->
  run st [Connect (CbFun f); StdoutData text; StderrData data] =
  (deaf st,
   [Spawn (config st);
    Call f [VError (Error (lit "Error connecting " ++ trim text)); VNull];
    Kill;
    Call f [VError (Error data); VNull]]).
Proof.
  intros H.
  cbv -[trim str_eqb lit Nat.eqb]. rewrite Nat.eqb_refl. cbv -[trim str_eqb lit Nat.eqb].
  rewrite H. cbv -[trim str_eqb lit Nat.eqb]. rewrite Nat.eqb_refl. reflexivity.
Qed.

End Handshake.

Lemma handshake_failure_calls_back_twice_witness :
  str_eqb (trim (lit "boom")) (lit "connected") = false
  /\ run fresh_bridge [Connect (CbFun 0); StdoutData (lit "boom"); StderrData (lit "late")] =
     (deaf fresh_bridge,
      [Spawn (config fresh_bridge);
       Call 0 [VError (Error (lit "Error connecting " ++ trim (lit "boom"))); VNull];
       Kill;
       Call 0 [VError (Error (lit "late")); VNull]]).
Proof.
  split; [reflexivity|].
  apply (handshake_failure_calls_back_twice fresh_bridge 0 (lit "boom") (lit "late")).
  reflexivity.
Defined.

(** ** The two modes of delivery *)

Section TableLookup.

Lemma tbl_get_replace (k : PropertyKey) (e : Entry) (t : Table) :
  tbl_get k t <> None -> tbl_get k (tbl_replace k e t) = Some e.
Proof.
  induction t as [|[k' e'] t IH]; cbn; [congruence|].
  destruct (key_eqb k k') eqn:E; cbn; rewrite E; auto.
Qed.

Lemma tbl_get_insert_index (z : Z) (e : Entry) (t : Table) :
  tbl_get (KNum z) (tbl_insert_index z e t) = Some e.
Proof.
  induction t as [|[[z'|s] e'] t IH]; cbn [tbl_insert_index].
  - cbn. now rewrite Z.eqb_refl.
  - destruct (is_array_index (KNum z') && (z' <? z)) eqn:E; cbn [tbl_get key_eqb].
    + apply andb_true_iff in E. destruct E as [_ E]. apply Z.ltb_lt in E.
      destruct (z =? z') eqn:E'; [apply Z.eqb_eq in E'; lia|]. exact IH.
    + now rewrite Z.eqb_refl.
  - cbn. now rewrite Z.eqb_refl.
Qed.

Lemma tbl_get_append (k : PropertyKey) (e : Entry) (t : Table) :
  tbl_get k t = None -> tbl_get k (t ++ [(k, e)]) = Some e.
Proof.
  induction t as [|[k' e'] t IH]; cbn.
  - now rewrite key_eqb_refl.
  - destruct (key_eqb k k'); [discriminate|]. exact IH.
Qed.

(** After [table[k] = e], [table[k]] is [e]. *)
Lemma tbl_get_set (k : PropertyKey) (e : Entry) (t : Table) :
  tbl_get k (tbl_set k e t) = Some e.
Proof.
  unfold tbl_set. destruct (tbl_get k t) eqn:E.
  - apply tbl_get_replace. congruence.
  - destruct k as [z|s].
    + destruct (is_array_index (KNum z)).
      * apply tbl_get_insert_index.
      * now apply tbl_get_append.
    + now apply tbl_get_append.
Qed.

End TableLookup.

Lemma deliveries_timing (st : Sybase) (what : LogLine) :
  deliveries (timing_lines st what) = [].
Proof. unfold timing_lines. destruct (logTiming st); [apply deliveries_log|reflexivity]. Qed.

(** [jsonParser] calls its listeners in the order they were added: when the
    first one is the listener of the table and it throws, the others never
    see the message. *)
Lemma emit_parser_data_throws
  (st s : Sybase) (jsonMsg : JsonMsg.t) (ls : list ParserListener)
  (out : list Effect) (e : JSError) :
  jsonParser st = ResponseListener :: ls ->
  onSQLResponse jsonMsg st = (s, out, Throw e) ->
  emit_parser_data jsonMsg st = (s, out, Throw e).
Proof.
  intros Hls Hthrow. cbv [emit_parser_data bind get]. rewrite Hls.
  cbn [for_each]. cbv [bind parser_listener]. now rewrite Hthrow.
Qed.

(** The listener of [querySync], when it is the one that runs: on the
    response whose [msgId] is the current counter it takes itself off and
    resolves the promise with [jsonMsg.result] as it came; a sequence of one
    element stays a sequence. *)
Lemma onResponse_resolves_with_sequence
  (st : Sybase) (p : nat) (jsonMsg : JsonMsg.t) (l : list json) :
  JsonMsg.msgId jsonMsg = Some (queryCount st) ->
  JsonMsg.error jsonMsg = None ->
  JsonMsg.result jsonMsg = Some l ->
  onResponse p jsonMsg st =
  (set_jsonParser (remove_listener parser_listener_eqb (OnResponse p) (jsonParser st)) st,
   [Resolve p (VJson (JArr l))], Normal tt).
Proof.
  intros Hid Herr Hres. cbv [onResponse bind get modify tell].
  rewrite Hid, Herr, Hres, Z.eqb_refl. reflexivity.
Qed.

(** The callback mode: the callback of the pending request gets the element
    of a sequence of one and a longer sequence as it is. *)
Lemma callback_mode_delivery
  (st : Sybase) (jsonMsg : JsonMsg.t) (m : Msg) (f : nat) (l : list json) :
  tbl_get (key_of_msgId (JsonMsg.msgId jsonMsg)) (currentMessages st) = Some (ERequest m) ->
  callback m = CbFun f ->
  JsonMsg.result jsonMsg = Some l ->
  deliveries (effects_of (onSQLResponse jsonMsg st))
  = [Call f [failure_of jsonMsg;
             match l with
             | [x] => VJson x
             | _ => VJson (JArr l)
             end]].
Proof.
  intros Hget Hcb Hres. rewrite (onSQLResponse_pending st jsonMsg m l Hget Hres), Hcb.
  cbn [effects_of fst snd]. rewrite deliveries_app, deliveries_timing. reflexivity.
Qed.

Definition single_result_response : JsonMsg.t :=
  JsonMsg.mk (Some 1) (Some [JArr [JNum 7]]) (Some 10) (Some 20) None.

(** C5, where the code departs from it.  A [querySync] on the ready bridge
    followed by its response, whose [result] has one element: the listener
    of the table raises a [TypeError] on the [null] callback, nothing is
    delivered to the promise, and the listener of [querySync], had it run,
    would have resolved the promise with the sequence of one element, not
    with the element. *)
Theorem querySync_single_result_not_delivered :
  let submitted := fst (run ready_bridge [QuerySync (lit "select 1") 9 example_clock]) in
  let out := snd (run submitted [JsonValue single_result_response]) in
  out = [Uncaught (TypeError "cb is not a function")]
  /\ deliveries out = []
  /\ effects_of (onResponse 9 single_result_response submitted)
     = [Resolve 9 (VJson (JArr [JArr [JNum 7]]))].
Proof. repeat split. Qed.

(** C9.  [querySync] on a connected bridge, where the listener of the table
    was added to [jsonParser] first, as [connectCore] does: the entry it
    stores under the new identifier has [null] for callback, and its own
    listener is added after the listener of the table.  So when a message
    with that identifier arrives, the listener of the table runs first and
    raises a [TypeError] (on the [null] callback, or earlier on a missing
    [result]); nothing is delivered and the listener of [querySync] does not
    run. *)
Theorem querySync_response_hits_null_callback
  (st : Sybase) (w : ChildProcess) (sql : jsstring) (p : nat) (clock : Clock)
  (ls : list ParserListener) (jsonMsg : JsonMsg.t) :
  connected st = true -> javaDB st = Some w ->
  jsonParser st = ResponseListener :: ls ->
  JsonMsg.msgId jsonMsg = Some (js_incr (queryCount st)) ->
  let st1 := state_of (querySync sql p clock st) in
  (exists m, tbl_get (KNum (js_incr (queryCount st))) (currentMessages st1)
             = Some (ERequest m)
             /\ callback m = CbNull)
  /\ jsonParser st1 = ResponseListener :: ls ++ [OnResponse p]
  /\ exists st2 out what,
       emit_parser_data jsonMsg st1 = (st2, out, Throw (TypeError what))
       /\ deliveries out = [].
Proof.
  intros Hc Hw Hls Hid.
  rewrite (querySync_connected st sql clock p w Hc Hw). cbn [state_of fst].
  set (m := next_msg st sql CbNull clock).
  set (st1 := set_jsonParser _ _).
  assert (Hget : tbl_get (key_of_msgId (JsonMsg.msgId jsonMsg)) (currentMessages st1)
                 = Some (ERequest m)).
  { rewrite Hid. apply tbl_get_set. }
  assert (Hls1 : jsonParser st1 = ResponseListener :: ls ++ [OnResponse p]).
  { subst st1. cbn [jsonParser set_jsonParser]. now rewrite Hls. }
  split; [|split].
  - exists m. split; [|reflexivity].
    pose proof Hget as Hget'. rewrite Hid in Hget'. exact Hget'.
  - exact Hls1.
  - destruct (JsonMsg.result jsonMsg) as [l|] eqn:Hres.
    + do 3 eexists. split.
      * eapply emit_parser_data_throws; [exact Hls1|].
        rewrite (onSQLResponse_pending st1 jsonMsg m l Hget Hres). reflexivity.
      * apply deliveries_timing.
    + destruct (onSQLResponse_missing_result st1 jsonMsg Hres) as [what Hthrow].
      do 3 eexists. split.
      * eapply emit_parser_data_throws; [exact Hls1|exact Hthrow].
      * reflexivity.
Qed.

Definition first_response : JsonMsg.t :=
  JsonMsg.mk (Some 1) (Some [JArr [JNum 7]; JArr []]) (Some 10) (Some 20) None.

Lemma querySync_response_hits_null_callback_witness :
  connected ready_bridge = true
  /\ javaDB ready_bridge = Some ready_worker
  /\ jsonParser ready_bridge = ResponseListener :: []
  /\ JsonMsg.msgId first_response = Some (js_incr (queryCount ready_bridge))
  /\ let st1 := state_of (querySync (lit "select 1") 9 example_clock ready_bridge) in
     (exists m, tbl_get (KNum (js_incr (queryCount ready_bridge))) (currentMessages st1)
                = Some (ERequest m)
                /\ callback m = CbNull)
     /\ jsonParser st1 = ResponseListener :: [] ++ [OnResponse 9]
     /\ exists st2 out what,
          emit_parser_data first_response st1 = (st2, out, Throw (TypeError what))
          /\ deliveries out = [].
Proof.
  split; [reflexivity|]. split; [reflexivity|]. split; [reflexivity|].
  split; [reflexivity|].
  apply (querySync_response_hits_null_callback ready_bridge ready_worker (lit "select 1") 9
           example_clock [] first_response); reflexivity.
Defined.

(** ** Runs *)

Lemma run_app (st : Sybase) (evs evs' : list Event) :
  run st (evs ++ evs') =
  (fst (run (fst (run st evs)) evs'),
   snd (run st evs) ++ snd (run (fst (run st evs)) evs')).
Proof.
  revert st. induction evs as [|ev evs IH]; intros st; cbn [app run].
  - cbn [fst snd app]. now destruct (run st evs').
  - destruct (handle ev st) as [[st' out] c]. rewrite IH.
    destruct (run st' evs) as [st'' out'']. cbn [fst snd].
    now rewrite !app_assoc.
Qed.

Lemma run_one (st : Sybase) (ev : Event) :
  run st [ev] =
  (state_of (handle ev st), effects_of (handle ev st) ++ uncaught (completion_of (handle ev st))).
Proof.
  cbn [run]. destruct (handle ev st) as [[st' out] c]. cbn. now rewrite app_nil_r.
Qed.

Lemma line_msgId_request (m : Msg) :
  line_msgId (JSON_stringify m ++ newline) = Some (msgId m).
Proof.
  unfold line_msgId. destruct (JSON_parse_request m) as [_ ->].
  now destruct (request_fields m) as [-> _].
Qed.

(** ** Disconnection *)

(** C10.  [disconnect] changes nothing but the flag [connected]: the
    counter, the table, the listeners and the rest of the object stay, and
    nothing is delivered to any caller; when there is a worker, it is killed
    and the flag becomes [false].  The counter is therefore not reset: after
    a reconnection the next query gets the identifier that follows the last
    one given before the disconnection. *)
Theorem disconnect_frame (st : Sybase) :
  let st' := state_of (disconnect st) in
  queryCount st' = queryCount st
  /\ currentMessages st' = currentMessages st
  /\ jsonParser st' = jsonParser st
  /\ javaDB st' = javaDB st
  /\ (config st', logTiming st', logs st') = (config st, logTiming st, logs st)
  /\ deliveries (effects_of (disconnect st)) = []
  /\ (forall w, javaDB st = Some w ->
                disconnect st = (set_connected false st, [Kill], Normal tt))
  /\ (forall (f : nat) (sql : jsstring) (cb : Callback) (clock : Clock),
         let after := run st' [Connect (CbFun f); StdoutData (lit "connected");
                               Query sql cb clock] in
         queryCount (fst after) = js_incr (queryCount st)
         /\ List.map line_msgId (written_lines (snd after))
            = [Some (js_incr (queryCount st))]).
Proof.
  assert (Hframe : forall w, javaDB st = Some w ->
                             disconnect st = (set_connected false st, [Kill], Normal tt)).
  { intros w Hw. cbv [disconnect kill the_javaDB bind get ret tell modify]. now rewrite Hw. }
  assert (Hq : queryCount (state_of (disconnect st)) = queryCount st).
  { destruct (javaDB st) as [w|] eqn:Hw.
    - now rewrite (Hframe w eq_refl).
    - cbv [disconnect kill the_javaDB bind get ret tell modify throw]. now rewrite Hw. }
  cbv zeta. repeat match goal with |- _ /\ _ => split end; try exact Hframe; try exact Hq.
  1-5: destruct (javaDB st) as [w|] eqn:Hw;
    [rewrite (Hframe w eq_refl); cbn; now rewrite ?Hw
    |cbv [disconnect kill the_javaDB bind get ret tell modify throw]; rewrite Hw;
     cbn; now rewrite ?Hw].
  - intros f sql cb clock.
    change [Connect (CbFun f); StdoutData (lit "connected"); Query sql cb clock]
      with ([Connect (CbFun f); StdoutData (lit "connected")] ++ [Query sql cb clock]).
    rewrite run_app, handshake_connected by reflexivity. cbn [fst snd].
    rewrite run_one. cbn [handle].
    rewrite (query_connected (handshaken (state_of (disconnect st))) sql clock cb
               ready_worker eq_refl eq_refl).
    cbn [state_of effects_of completion_of fst snd uncaught].
    split.
    + cbn. exact (f_equal js_incr Hq).
    + rewrite !written_lines_app, !written_lines_log. cbn [written_lines flat_map app List.map].
      rewrite line_msgId_request. cbn [msgId next_msg handshaken queryCount].
      now rewrite Hq.
Qed.

Lemma disconnect_frame_witness :
  javaDB ready_bridge = Some ready_worker
  /\ disconnect ready_bridge = (set_connected false ready_bridge, [Kill], Normal tt)
  /\ queryCount (state_of (disconnect ready_bridge)) = queryCount ready_bridge
  /\ currentMessages (state_of (disconnect ready_bridge)) = currentMessages ready_bridge.
Proof.
  split; [reflexivity|].
  pose proof (disconnect_frame ready_bridge) as H. cbv zeta in H.
  destruct H as (Hq & Ht & _ & _ & _ & _ & Hk & _).
  split; [apply (Hk ready_worker); reflexivity|]. split; assumption.
Defined.

(** ** The counter along a run *)

(** A connected bridge has a worker. *)
Definition good (st : Sybase) : Prop := connected st = true -> javaDB st <> None.

Definition has_worker (st : Sybase) : Prop := javaDB st <> None.

(** Code that, from an object with property [I], leaves the counter alone,
    writes nothing to the worker and keeps [I]. *)
Definition quiet (I : Sybase -> Prop) {A : Type} (m : Eff A) : Prop :=
  forall st, I st ->
    I (state_of (m st))
    /\ queryCount (state_of (m st)) = queryCount st
    /\ written_lines (effects_of (m st)) = [].

Section Quiet.

Variable I : Sybase -> Prop.

(** [I] looks only at [connected] and [javaDB], and a new worker keeps it. *)
Hypothesis I_link :
  forall st st', connected st' = connected st -> javaDB st' = javaDB st -> I st -> I st'.
Hypothesis I_worker : forall st w, I st -> I (set_javaDB (Some w) st).

Lemma quiet_ret {A : Type} (a : A) : quiet I (ret a).
Proof. intros st H. now repeat split. Qed.

Lemma quiet_get : quiet I get.
Proof. intros st H. now repeat split. Qed.

Lemma quiet_throw {A : Type} (e : JSError) : quiet I (@throw A e).
Proof. intros st H. now repeat split. Qed.

Lemma quiet_tell (e : Effect) : written_lines [e] = [] -> quiet I (tell e).
Proof. intros He st H. now repeat split. Qed.

Lemma quiet_bind {A B : Type} (m : Eff A) (k : A -> Eff B) :
  quiet I m -> (forall a, quiet I (k a)) -> quiet I (bind m k).
Proof.
  intros Hm Hk st H. unfold bind. specialize (Hm st H).
  destruct (m st) as [[s o] [a|e]]; cbn [state_of effects_of fst snd] in Hm |- *; [|exact Hm].
  destruct Hm as (H1 & H2 & H3). specialize (Hk a s H1).
  destruct (k a s) as [[s' o'] c']; cbn [state_of effects_of fst snd] in Hk |- *.
  destruct Hk as (H1' & H2' & H3'). repeat split.
  - exact H1'.
  - congruence.
  - now rewrite written_lines_app, H3, H3'.
Qed.

Lemma quiet_modify (f : Sybase -> Sybase) :
  (forall st, I st -> I (f st)) ->
  (forall st, queryCount (f st) = queryCount st) ->
  quiet I (modify f).
Proof. intros HI Hq st H. cbn. repeat split; auto. Qed.

Lemma quiet_for_each {X : Type} (xs : list X) (f : X -> Eff unit) :
  (forall x, quiet I (f x)) -> quiet I (for_each xs f).
Proof.
  intros Hf. induction xs as [|x xs IH]; cbn [for_each].
  - apply quiet_ret.
  - apply quiet_bind; [apply Hf|intros _; exact IH].
Qed.

Lemma quiet_call (cb : Callback) (args : list Value) : quiet I (call cb args).
Proof. destruct cb; cbn [call]; (apply quiet_throw || now apply quiet_tell). Qed.

Lemma quiet_log (what : LogLine) : quiet I (log what).
Proof.
  unfold log. apply quiet_bind; [apply quiet_get|]. intros st.
  destruct (logs st); [now apply quiet_tell|apply quiet_ret].
Qed.

Lemma quiet_executor (p : nat) (body : Eff unit) :
  quiet I body -> quiet I (executor p body).
Proof.
  intros Hb st H. unfold executor. specialize (Hb st H).
  destruct (body st) as [[s o] [a|e]]; cbn [state_of effects_of fst snd] in Hb |- *; [exact Hb|].
  destruct Hb as (H1 & H2 & H3). repeat split; auto.
  now rewrite written_lines_app, H3.
Qed.

Lemma quiet_set_currentMessages (t : Table) : quiet I (modify (set_currentMessages t)).
Proof. apply quiet_modify; [|reflexivity]. intros st. now apply I_link. Qed.

Lemma quiet_set_jsonParser (f : Sybase -> list ParserListener) :
  quiet I (modify (fun st => set_jsonParser (f st) st)).
Proof. apply quiet_modify; [|reflexivity]. intros st. now apply I_link. Qed.

Lemma quiet_onSQLResponse (jsonMsg : JsonMsg.t) : quiet I (onSQLResponse jsonMsg).
Proof.
  unfold onSQLResponse. apply quiet_bind; [apply quiet_get|]. intros st.
  apply quiet_bind; [apply quiet_set_currentMessages|]. intros _.
  apply quiet_bind.
  { destruct (JsonMsg.result jsonMsg) as [[|x [|y l]]|];
      (apply quiet_ret || apply quiet_throw). }
  intros result. apply quiet_bind.
  { destruct (tbl_get _ _); (apply quiet_ret || apply quiet_throw). }
  intros request. apply quiet_bind.
  { destruct (logTiming st); [apply quiet_log|apply quiet_ret]. }
  intros _. apply quiet_call.
Qed.

Lemma quiet_onSQLError (data : jsstring) : quiet I (onSQLError data).
Proof.
  unfold onSQLError. apply quiet_bind; [apply quiet_get|]. intros st.
  apply quiet_bind; [apply quiet_set_currentMessages|]. intros _.
  apply quiet_for_each. intros cb. apply quiet_call.
Qed.

Lemma quiet_onResponse (p : nat) (jsonMsg : JsonMsg.t) : quiet I (onResponse p jsonMsg).
Proof.
  unfold onResponse. apply quiet_bind; [apply quiet_get|]. intros st.
  destruct (JsonMsg.msgId jsonMsg) as [i|]; [|apply quiet_ret].
  destruct (i =? queryCount st); [|apply quiet_ret].
  apply quiet_bind; [apply quiet_set_jsonParser|]. intros _.
  destruct (JsonMsg.error jsonMsg); now apply quiet_tell.
Qed.

Lemma quiet_emit_parser_data (jsonMsg : JsonMsg.t) : quiet I (emit_parser_data jsonMsg).
Proof.
  unfold emit_parser_data. apply quiet_bind; [apply quiet_get|]. intros st.
  apply quiet_for_each. intros [|p]; [apply quiet_onSQLResponse|apply quiet_onResponse].
Qed.

Lemma quiet_connect_callback (cb : ConnectCallback) (err : option JSError) (data : Value) :
  quiet I (connect_callback cb err data).
Proof.
  destruct cb as [f|p]; cbn [connect_callback]; [apply quiet_call|].
  destruct err; now apply quiet_tell.
Qed.

Lemma quiet_the_javaDB : quiet I the_javaDB.
Proof.
  unfold the_javaDB. apply quiet_bind; [apply quiet_get|]. intros st.
  destruct (javaDB st); [apply quiet_ret|apply quiet_throw].
Qed.

Lemma quiet_set_stdout_data (ls : list StdoutListener) : quiet I (set_stdout_data ls).
Proof.
  unfold set_stdout_data. apply quiet_bind; [apply quiet_the_javaDB|]. intros w.
  apply quiet_modify; [|reflexivity]. intros st. apply I_worker.
Qed.

Lemma quiet_set_stderr_data (ls : list StderrListener) : quiet I (set_stderr_data ls).
Proof.
  unfold set_stderr_data. apply quiet_bind; [apply quiet_the_javaDB|]. intros w.
  apply quiet_modify; [|reflexivity]. intros st. apply I_worker.
Qed.

Lemma quiet_kill : quiet I kill.
Proof.
  unfold kill. apply quiet_bind; [apply quiet_the_javaDB|]. intros _. now apply quiet_tell.
Qed.

Lemma quiet_connectCore_stderr (cb : ConnectCallback) (data : jsstring) :
  quiet I (connectCore_stderr cb data).
Proof.
  unfold connectCore_stderr.
  apply quiet_bind; [apply quiet_set_stdout_data|]. intros _.
  apply quiet_bind; [apply quiet_kill|]. intros _. apply quiet_connect_callback.
Qed.

Lemma quiet_stderr_listener (l : StderrListener) (data : jsstring) :
  quiet I (stderr_listener l data).
Proof.
  destruct l as [cb|]; cbn [stderr_listener]; [|apply quiet_onSQLError].
  apply quiet_bind; [apply quiet_the_javaDB|]. intros w.
  apply quiet_bind; [apply quiet_set_stderr_data|]. intros _.
  apply quiet_connectCore_stderr.
Qed.

Lemma quiet_connectCore (cb : ConnectCallback) : quiet I (connectCore cb).
Proof.
  unfold connectCore. apply quiet_bind; [apply quiet_get|]. intros st.
  apply quiet_bind; [now apply quiet_tell|]. intros _.
  apply quiet_modify; [|reflexivity]. intros st'. apply I_worker.
Qed.

End Quiet.

Section Counter.

Lemma good_link (st st' : Sybase) :
  connected st' = connected st -> javaDB st' = javaDB st -> good st -> good st'.
Proof. unfold good. intros -> ->. auto. Qed.

Lemma good_worker (st : Sybase) (w : ChildProcess) : good st -> good (set_javaDB (Some w) st).
Proof. unfold good. cbn. discriminate. Qed.

Lemma has_worker_link (st st' : Sybase) :
  connected st' = connected st -> javaDB st' = javaDB st -> has_worker st -> has_worker st'.
Proof. unfold has_worker. intros _ ->. auto. Qed.

Lemma has_worker_worker (st : Sybase) (w : ChildProcess) :
  has_worker st -> has_worker (set_javaDB (Some w) st).
Proof. unfold has_worker. cbn. discriminate. Qed.

Lemma has_worker_good (st : Sybase) : has_worker st -> good st.
Proof. unfold has_worker, good. auto. Qed.

Lemma quiet_connectCore_stdout (cb : ConnectCallback) (data : jsstring) :
  quiet has_worker (connectCore_stdout cb data).
Proof.
  pose proof has_worker_link as HL. pose proof has_worker_worker as HW.
  unfold connectCore_stdout.
  destruct (negb (str_eqb (trim data) (lit "connected"))).
  { now apply quiet_connect_callback. }
  apply quiet_bind; [now apply quiet_set_stderr_data|]. intros _.
  apply quiet_bind; [apply quiet_modify; [intros st H; exact H|reflexivity]|]. intros _.
  apply quiet_bind; [now apply quiet_the_javaDB|]. intros w.
  apply quiet_bind; [now apply quiet_set_stdout_data|]. intros _.
  apply quiet_bind; [now apply quiet_set_jsonParser|]. intros _.
  apply quiet_bind; [now apply quiet_set_stderr_data|]. intros _.
  now apply quiet_connect_callback.
Qed.

Lemma quiet_stdout_listener (l : StdoutListener) (data : jsstring) :
  quiet has_worker (stdout_listener l data).
Proof.
  pose proof has_worker_link as HL. pose proof has_worker_worker as HW.
  destruct l as [cb|]; cbn [stdout_listener]; [|now apply quiet_ret].
  apply quiet_bind; [now apply quiet_the_javaDB|]. intros w.
  apply quiet_bind; [now apply quiet_set_stdout_data|]. intros _.
  apply quiet_connectCore_stdout.
Qed.

Lemma bind_get {A : Type} (k : Sybase -> Eff A) (st : Sybase) :
  state_of (bind get k st) = state_of (k st st)
  /\ effects_of (bind get k st) = effects_of (k st st).
Proof. unfold bind, get. now destruct (k st st) as [[s o] c]. Qed.

Lemma quiet_emit_stdout_data (data : jsstring) : quiet good (emit_stdout_data data).
Proof.
  intros st Hg. unfold emit_stdout_data.
  destruct (bind_get (fun st0 => match javaDB st0 with
                                 | Some w => for_each (stdout_data w)
                                               (fun l => stdout_listener l data)
                                 | None => ret tt
                                 end) st) as [-> ->].
  destruct (javaDB st) as [w|] eqn:Hw; [|now repeat split].
  destruct (quiet_for_each has_worker (stdout_data w) (fun l => stdout_listener l data)
              (fun l => quiet_stdout_listener l data) st) as (H1 & H2 & H3).
  { unfold has_worker. congruence. }
  repeat split; auto using has_worker_good.
Qed.

Lemma quiet_emit_stderr_data (data : jsstring) : quiet good (emit_stderr_data data).
Proof.
  intros st Hg. unfold emit_stderr_data.
  destruct (bind_get (fun st0 => match javaDB st0 with
                                 | Some w => for_each (stderr_data w)
                                               (fun l => stderr_listener l data)
                                 | None => ret tt
                                 end) st) as [-> ->].
  destruct (javaDB st) as [w|] eqn:Hw; [|now repeat split].
  destruct (quiet_for_each has_worker (stderr_data w) (fun l => stderr_listener l data)
              (fun l => quiet_stderr_listener has_worker has_worker_link has_worker_worker
                          l data) st) as (H1 & H2 & H3).
  { unfold has_worker. congruence. }
  repeat split; auto using has_worker_good.
Qed.

Lemma quiet_disconnect : quiet good disconnect.
Proof.
  unfold disconnect.
  apply quiet_bind; [apply quiet_kill|]. intros _.
  apply quiet_modify; [|reflexivity]. intros st _. unfold good. cbn. discriminate.
Qed.

(** What one event does to the counter: nothing, and then nothing is
    written; or one increment, and then one line is written, which carries
    the new value. *)
Definition counts (st st' : Sybase) (out : list Effect) : Prop :=
  (queryCount st' = queryCount st /\ written_lines out = [])
  \/ (queryCount st' = js_incr (queryCount st)
      /\ exists line, written_lines out = [line]
                      /\ line_msgId line = Some (js_incr (queryCount st))).

Lemma good_submitted (m : Msg) (st : Sybase) : good st -> good (submitted m st).
Proof. apply good_link; reflexivity. Qed.

Lemma handle_counts (ev : Event) (st : Sybase) :
  good st ->
  good (state_of (handle ev st))
  /\ counts st (state_of (handle ev st)) (effects_of (handle ev st)).
Proof.
  intros Hg.
  assert (Hquiet : forall m : Eff unit, quiet good m ->
                     good (state_of (m st)) /\ counts st (state_of (m st)) (effects_of (m st))).
  { intros m Hm. destruct (Hm st Hg) as (H1 & H2 & H3). split; [exact H1|left; auto]. }
  destruct ev as [cb|p|sql cb clock|sql p clock| |data|data|jsonMsg]; cbn [handle].
  - apply Hquiet, (quiet_connectCore good good_worker).
  - apply Hquiet, quiet_executor, (quiet_connectCore good good_worker).
  - destruct (connected st) eqn:Hc.
    + destruct (javaDB st) as [w|] eqn:Hw; [|exfalso; now apply (Hg Hc)].
      rewrite (query_connected st sql clock cb w Hc Hw).
      cbn [state_of effects_of fst snd]. split; [now apply good_submitted|]. right.
      split; [reflexivity|]. eexists. split.
      * rewrite !written_lines_app, !written_lines_log. reflexivity.
      * apply line_msgId_request.
    + rewrite (query_disconnected st sql clock cb Hc).
      cbn [state_of effects_of fst snd]. split; [exact Hg|]. left.
      now destruct cb.
  - destruct (connected st) eqn:Hc.
    + destruct (javaDB st) as [w|] eqn:Hw; [|exfalso; now apply (Hg Hc)].
      rewrite (querySync_connected st sql clock p w Hc Hw).
      cbn [state_of effects_of fst snd]. split.
      { apply (good_link (submitted (next_msg st sql CbNull clock) st));
          [reflexivity|reflexivity|now apply good_submitted]. }
      right. split; [reflexivity|]. eexists. split.
      * rewrite !written_lines_app, !written_lines_log. reflexivity.
      * apply line_msgId_request.
    + rewrite (querySync_disconnected st sql clock p Hc).
      cbn [state_of effects_of fst snd]. split; [exact Hg|]. now left.
  - apply Hquiet, quiet_disconnect.
  - apply Hquiet, quiet_emit_stdout_data.
  - apply Hquiet, quiet_emit_stderr_data.
  - apply Hquiet, quiet_emit_parser_data. apply good_link.
Qed.

End Counter.

Section Identifiers.

Lemma written_lines_uncaught (c : Completion unit) : written_lines (uncaught c) = [].
Proof. now destruct c. Qed.

(** Along a run the counter is incremented once for every line written, and
    each line carries the value the counter had after its increment. *)
Lemma run_counts (evs : list Event) :
  forall st : Sybase, good st ->
    let n := List.length (written_lines (snd (run st evs))) in
    good (fst (run st evs))
    /\ queryCount (fst (run st evs)) = Nat.iter n js_incr (queryCount st)
    /\ List.map line_msgId (written_lines (snd (run st evs)))
       = List.map (fun k => Some (Nat.iter (S k) js_incr (queryCount st))) (seq 0 n).
Proof.
  induction evs as [|ev evs IH]; intros st Hg; cbn [run].
  - cbn. auto.
  - destruct (handle_counts ev st Hg) as [Hg' Hc].
    destruct (handle ev st) as [[st' out] c]. cbn [state_of effects_of fst snd] in Hg', Hc.
    specialize (IH st' Hg'). destruct (run st' evs) as [st'' out']. cbn [fst snd] in IH |- *.
    rewrite !written_lines_app, written_lines_uncaught. cbn [app].
    destruct IH as (IH1 & IH2 & IH3).
    destruct Hc as [[Hq Hout]|[Hq (line & Hout & Hline)]]; rewrite Hout; cbn [app].
    + rewrite <- Hq. auto.
    + cbn [List.length]. split; [exact IH1|]. split.
      * rewrite IH2, Hq. symmetry. apply Nat.iter_succ_r.
      * cbn [seq List.map]. rewrite Hline. f_equal.
        rewrite IH3, <- seq_shift, map_map, Hq. apply map_ext. intros k.
        f_equal. symmetry. apply (Nat.iter_succ_r (S k)).
Qed.

(** While the counter is a number that JavaScript holds exactly, counting
    from zero gives the natural numbers. *)
Lemma iter_js_incr (k : nat) :
  Z.of_nat k <= 2 ^ 53 -> Nat.iter k js_incr 0 = Z.of_nat k.
Proof.
  induction k as [|k IH]; [reflexivity|]. intros Hk. rewrite Nat.iter_succ.
  rewrite IH by lia. unfold js_incr.
  destruct (Z.ltb_spec (Z.of_nat k) (2 ^ 53)); lia.
Qed.

Lemma good_new_Sybase (cfg : Config) (timing logging : bool) :
  good (new_Sybase cfg timing logging).
Proof. unfold good. cbn. discriminate. Qed.

End Identifiers.

(** C6.  On a bridge built by [new Sybase], whatever the calls of the caller
    and the output of the worker, the lines written to the worker carry, in
    the order they are written, the identifiers 1, 2, 3, ..., one per
    accepted submission, for as long as the counter stays within the
    integers that a JavaScript number holds exactly (up to [2^53]); the
    counter is then the number of lines written.  A submission on a bridge
    that is not connected leaves the counter as it was. *)
Theorem identifiers_count_up
  (cfg : Config) (timing logging : bool) (evs : list Event) :
  let r := run (new_Sybase cfg timing logging) evs in
  let n := List.length (written_lines (snd r)) in
  Z.of_nat n <= 2 ^ 53 ->
  List.map line_msgId (written_lines (snd r))
  = List.map (fun k => Some (Z.of_nat k)) (seq 1 n)
  /\ queryCount (fst r) = Z.of_nat n
  /\ (forall (st : Sybase) (sql : jsstring) (cb : Callback) (p : nat) (clock : Clock),
         queryCount (state_of (query sql cb clock (set_connected false st)))
         = queryCount st
         /\ queryCount (state_of (querySync sql p clock (set_connected false st)))
            = queryCount st).
Proof.
  intros r n Hn.
  destruct (run_counts evs (new_Sybase cfg timing logging)
              (good_new_Sybase cfg timing logging)) as (_ & Hq & Hids).
  fold r in Hq, Hids. fold n in Hq, Hids. cbn [new_Sybase queryCount] in Hq, Hids.
  split; [|split].
  - rewrite Hids, <- seq_shift, map_map. apply map_ext_in. intros k Hk.
    apply in_seq in Hk. f_equal. apply iter_js_incr. lia.
  - rewrite Hq. now apply iter_js_incr.
  - intros st sql cb p clock. split.
    + now rewrite query_disconnected.
    + now rewrite querySync_disconnected.
Qed.

Definition session_events : list Event :=
  [Query (lit "too early") (CbFun 1) example_clock;
   Connect (CbFun 0);
   StdoutData (lit "connected");
   Query (lit "select 1") (CbFun 1) example_clock;
   QuerySync two_line_sql 2 example_clock;
   Disconnect;
   Query (lit "too late") (CbFun 3) example_clock;
   Connect (CbFun 0);
   StdoutData (lit "connected");
   Query (lit "select 3") (CbFun 4) example_clock].

Lemma identifiers_count_up_witness :
  let r := run (new_Sybase example_config false false) session_events in
  Z.of_nat (List.length (written_lines (snd r))) <= 2 ^ 53
  /\ List.map line_msgId (written_lines (snd r)) = [Some 1; Some 2; Some 3]
  /\ queryCount (fst r) = 3.
Proof.
  cbv zeta.
  assert (Hn : Z.of_nat
                 (List.length
                    (written_lines (snd (run (new_Sybase example_config false false)
                                           session_events)))) <= 2 ^ 53).
  { vm_compute. discriminate. }
  split; [exact Hn|].
  destruct (identifiers_count_up example_config false false session_events Hn)
    as (Hids & Hq & _).
  split; [exact Hids|exact Hq].
Defined.

(* ================================================================== *)
(** * More of the bridge *)
(* ================================================================== *)

(** The exceptions that left a handler during a run. *)
Definition uncaught_errors (out : list Effect) : list JSError :=
  flat_map (fun e => match e with Uncaught x => [x] | _ => [] end) out.

(** What reached the console. *)
Definition console_output (out : list Effect) : list LogLine :=
  flat_map (fun e => match e with ConsoleLog l => [l] | _ => [] end) out.

(** Raw output of the worker, as opposed to calls of the caller. *)
Definition worker_output (ev : Event) : bool :=
  match ev with
  | StdoutData _ | StderrData _ => true
  | _ => false
  end.

(** ** The text of a request *)

(** X1.  The [replace] of [prepareQuery] is applied to what [JSON.stringify]
    returns, and [JSON.stringify] has already escaped every line feed: the
    [replace] never changes the text, whatever the SQL. *)
Theorem replace_finds_no_newline (m : Msg) :
  replace_newlines (JSON_stringify m) = JSON_stringify m
  /\ ~ In (ch "010") (JSON_stringify m).
Proof.
  split.
  - apply replace_newlines_no_lf, no_lf_stringify.
  - apply no_lf_In, no_lf_stringify.
Qed.

(** X2.  The line of a [querySync] carries five fields: the [null] that
    [querySync] passes for callback is serialized too. *)
Theorem querySync_wire_line
  (st : Sybase) (w : ChildProcess) (sql : jsstring) (p : nat) (clock : Clock) :
  connected st = true -> javaDB st = Some w ->
  exists strMsg v,
    written_lines (effects_of (querySync sql p clock st)) = [strMsg ++ newline]
    /\ JSON_parse strMsg = Some v
    /\ field_names v
       = [lit "msgId"; lit "sql"; lit "sentTime"; lit "callback"; lit "hrstart"]
    /\ get_field "msgId" v = Some (JNum (js_incr (queryCount st)))
    /\ get_field "sql" v = Some (JStr sql)
    /\ get_field "callback" v = Some JNull.
Proof.
  intros Hc Hw. rewrite (querySync_connected st sql clock p w Hc Hw).
  cbn [effects_of fst snd]. rewrite !written_lines_app, !written_lines_log.
  cbn [written_lines flat_map app].
  exists (JSON_stringify (next_msg st sql CbNull clock)),
         (json_of_msg (next_msg st sql CbNull clock)).
  split; [reflexivity|].
  split; [exact (proj1 (JSON_parse_request (next_msg st sql CbNull clock)))|].
  repeat split.
Qed.

Lemma querySync_wire_line_witness :
  connected ready_bridge = true
  /\ javaDB ready_bridge = Some ready_worker
  /\ exists strMsg v,
       written_lines (effects_of (querySync two_line_sql 2 example_clock ready_bridge))
       = [strMsg ++ newline]
       /\ JSON_parse strMsg = Some v
       /\ field_names v
          = [lit "msgId"; lit "sql"; lit "sentTime"; lit "callback"; lit "hrstart"]
       /\ get_field "msgId" v = Some (JNum (js_incr (queryCount ready_bridge)))
       /\ get_field "sql" v = Some (JStr two_line_sql)
       /\ get_field "callback" v = Some JNull.
Proof.
  split; [reflexivity|]. split; [reflexivity|].
  apply (querySync_wire_line ready_bridge ready_worker two_line_sql 2 example_clock);
    reflexivity.
Defined.

(** ** The handshake, again *)

Section Trim.



End Trim.


Section HandshakeAgain.

Variable st : Sybase.



(** Once the handshake has failed on [stderr] no listener is left on the
    worker's streams: whatever the worker writes afterwards has no effect. *)
Lemma run_deaf (more : list Event) (s : Sybase) :
  forallb worker_output more = true ->
  javaDB s = Some {| stdout_data := []; stderr_data := [] |} ->
  run s more = (s, []).
Proof.
  intros Hmore Hs. induction more as [|ev more IH]; [reflexivity|].
  cbn [forallb] in Hmore. apply andb_true_iff in Hmore. destruct Hmore as [Hev Hmore].
  assert (Hone : handle ev s = (s, [], Normal tt)).
  { destruct ev; try discriminate Hev; cbn [handle].
    - unfold emit_stdout_data, bind, get. now rewrite Hs.
    - unfold emit_stderr_data, bind, get. now rewrite Hs. }
  cbn [run]. rewrite Hone, (IH Hmore). reflexivity.
Qed.

(** X5.  The worker writes to [stderr] before any output: it is killed and the
    callback is called with the error, once, however much the worker writes
    on either stream afterwards. *)
Theorem handshake_stderr_calls_back_once (f : nat) (data : jsstring) (more : list Event) :
  forallb worker_output more = true ->
  run st (Connect (CbFun f) :: StderrData data :: more) =
  (deaf st, [Spawn (config st); Kill; Call f [VError (Error data); VNull]]).
Proof.
  intros Hmore.
  change (Connect (CbFun f) :: StderrData data :: more)
    with ([Connect (CbFun f); StderrData data] ++ more).
  rewrite run_app.
  assert (H2 : run st [Connect (CbFun f); StderrData data] =
               (deaf st, [Spawn (config st); Kill; Call f [VError (Error data); VNull]])).
  { cbv -[Nat.eqb]. rewrite Nat.eqb_refl. reflexivity. }
  rewrite H2. cbn [fst snd]. rewrite (run_deaf more (deaf st) Hmore eq_refl).
  cbn [fst snd]. now rewrite app_nil_r.
Qed.

End HandshakeAgain.


Lemma handshake_stderr_calls_back_once_witness :
  forallb worker_output [StdoutData (lit "connected"); StderrData (lit "again")] = true
  /\ run fresh_bridge
       (Connect (CbFun 0) :: StderrData (lit "no java")
        :: [StdoutData (lit "connected"); StderrData (lit "again")]) =
     (deaf fresh_bridge,
      [Spawn (config fresh_bridge); Kill; Call 0 [VError (Error (lit "no java")); VNull]]).
Proof.
  split; [reflexivity|].
  apply (handshake_stderr_calls_back_once fresh_bridge 0 (lit "no java")
           [StdoutData (lit "connected"); StderrData (lit "again")]).
  reflexivity.
Defined.

(** ** A request and its response *)

Section Emit.

Lemma bind_get_eq {A : Type} (k : Sybase -> Eff A) (st : Sybase) :
  bind get k st = k st st.
Proof. unfold bind, get. now destruct (k st st) as [[s o] c]. Qed.

Lemma emit_parser_data_eq (jsonMsg : JsonMsg.t) (st : Sybase) :
  emit_parser_data jsonMsg st
  = for_each (jsonParser st) (fun l => parser_listener l jsonMsg) st.
Proof.
  exact (bind_get_eq
           (fun st0 => for_each (jsonParser st0) (fun l => parser_listener l jsonMsg)) st).
Qed.

Lemma for_each_one {X : Type} (x : X) (f : X -> Eff unit) (st : Sybase) :
  for_each [x] f st = f x st.
Proof.
  cbn [for_each]. unfold bind, ret. destruct (f x st) as [[s o] [[]|e]]; [|reflexivity].
  now rewrite app_nil_r.
Qed.

Lemma for_each_cons_normal {X : Type} (x : X) (xs : list X) (f : X -> Eff unit)
  (st s : Sybase) (o : list Effect) :
  f x st = (s, o, Normal tt) ->
  for_each (x :: xs) f st =
  (state_of (for_each xs f s), o ++ effects_of (for_each xs f s),
   completion_of (for_each xs f s)).
Proof.
  intros H. cbn [for_each]. unfold bind. rewrite H.
  now destruct (for_each xs f s) as [[s' o'] c].
Qed.

Lemma tbl_get_delete (k : PropertyKey) (t : Table) : tbl_get k (tbl_delete k t) = None.
Proof.
  induction t as [|[k' e] t IH]; [reflexivity|]. cbn [tbl_delete].
  destruct (key_eqb k k') eqn:E; [exact IH|]. cbn [tbl_get]. now rewrite E.
Qed.

Lemma tbl_delete_append (k : PropertyKey) (e : Entry) (t : Table) :
  tbl_get k t = None -> tbl_delete k (t ++ [(k, e)]) = t.
Proof.
  induction t as [|[k' e'] t IH]; cbn [app tbl_get tbl_delete].
  - now rewrite key_eqb_refl.
  - destruct (key_eqb k k'); [discriminate|]. intros H. now rewrite IH.
Qed.

Lemma tbl_delete_insert_index (z : Z) (e : Entry) (t : Table) :
  tbl_get (KNum z) t = None -> tbl_delete (KNum z) (tbl_insert_index z e t) = t.
Proof.
  induction t as [|[[z'|s] e'] t IH]; cbn [tbl_insert_index]; intros H.
  - cbn. now rewrite Z.eqb_refl.
  - cbn [tbl_get] in H. destruct (key_eqb (KNum z) (KNum z')) eqn:E; [discriminate|].
    destruct (is_array_index (KNum z') && (z' <? z)).
    + cbn [tbl_delete]. rewrite E. now rewrite IH.
    + cbn [tbl_delete]. rewrite key_eqb_refl, E. fold tbl_delete.
      now rewrite tbl_delete_absent.
  - cbn [tbl_delete]. rewrite key_eqb_refl.
    cbn [tbl_get key_eqb] in H. cbn [key_eqb]. fold tbl_delete.
    now rewrite tbl_delete_absent.
Qed.

(** [delete table[k]] after [table[k] = e] gives the table back when [k]
    was not in it. *)
Lemma tbl_delete_set (k : PropertyKey) (e : Entry) (t : Table) :
  tbl_get k t = None -> tbl_delete k (tbl_set k e t) = t.
Proof.
  intros H. unfold tbl_set. rewrite H. destruct k as [z|s].
  - destruct (is_array_index (KNum z)).
    + now apply tbl_delete_insert_index.
    + now apply tbl_delete_append.
  - now apply tbl_delete_append.
Qed.

End Emit.

Lemma uncaught_errors_app (a b : list Effect) :
  uncaught_errors (a ++ b) = uncaught_errors a ++ uncaught_errors b.
Proof. apply flat_map_app. Qed.

Lemma uncaught_errors_log (st : Sybase) (what : LogLine) :
  uncaught_errors (log_lines st what) = [].
Proof. unfold log_lines. now destruct (logs st). Qed.

Lemma uncaught_errors_timing (st : Sybase) (what : LogLine) :
  uncaught_errors (timing_lines st what) = [].
Proof.
  unfold timing_lines. destruct (logTiming st); [apply uncaught_errors_log|reflexivity].
Qed.

Lemma deliveries_cons (e : Effect) (out : list Effect) :
  deliveries (e :: out) = (if delivers e then [e] else []) ++ deliveries out.
Proof. unfold deliveries. cbn [filter]. now destruct (delivers e). Qed.

Lemma uncaught_errors_cons (e : Effect) (out : list Effect) :
  uncaught_errors (e :: out)
  = match e with Uncaught x => [x] | _ => [] end ++ uncaught_errors out.
Proof. reflexivity. Qed.

(** Sorting a trace into what was delivered and what was left uncaught. *)
Ltac sort_trace :=
  cbn [uncaught];
  rewrite ?deliveries_app, ?uncaught_errors_app, ?deliveries_cons, ?uncaught_errors_cons,
    ?deliveries_log, ?deliveries_timing, ?uncaught_errors_log, ?uncaught_errors_timing;
  cbn [deliveries uncaught_errors filter flat_map delivers app].

Section OneRequest.

Variables (st : Sybase) (w : ChildProcess) (sql : jsstring) (f : nat) (clock : Clock).

Hypothesis Hconnected : connected st = true.
Hypothesis Hworker : javaDB st = Some w.
Hypothesis Hlisteners : jsonParser st = [ResponseListener].

Let id : Z := js_incr (queryCount st).
Let msg : Msg := next_msg st sql (CbFun f) clock.
Let st1 : Sybase := submitted msg st.

Lemma pending_after_query :
  tbl_get (KNum id) (currentMessages st1) = Some (ERequest msg).
Proof. apply tbl_get_set. Qed.

(** The response of the request just submitted. *)
Lemma response_after_query (jsonMsg : JsonMsg.t) (l : list json) :
  JsonMsg.msgId jsonMsg = Some id ->
  JsonMsg.result jsonMsg = Some l ->
  emit_parser_data jsonMsg st1 =
  (set_currentMessages (tbl_delete (KNum id) (currentMessages st1)) st1,
   timing_lines st1 (LogTiming (Some sql)) ++ [Call f [failure_of jsonMsg; unwrapped l]],
   Normal tt).
Proof.
  intros Hid Hres. rewrite emit_parser_data_eq.
  change (jsonParser st1) with (jsonParser st). rewrite Hlisteners, for_each_one.
  cbn [parser_listener].
  assert (Hget : tbl_get (key_of_msgId (JsonMsg.msgId jsonMsg)) (currentMessages st1)
                 = Some (ERequest msg)).
  { rewrite Hid. apply pending_after_query. }
  rewrite (onSQLResponse_pending st1 jsonMsg msg l Hget Hres), Hid. reflexivity.
Qed.

(** A response whose entry is not in the table. *)
Lemma onSQLResponse_absent (s : Sybase) (jsonMsg : JsonMsg.t) (l : list json) :
  tbl_get (key_of_msgId (JsonMsg.msgId jsonMsg)) (currentMessages s) = None ->
  JsonMsg.result jsonMsg = Some l ->
  onSQLResponse jsonMsg s =
  (s, [], Throw (TypeError "Cannot read properties of undefined (reading 'hrstart')")).
Proof.
  intros Hget Hres. cbv [onSQLResponse bind get modify ret throw].
  rewrite Hget, Hres, (tbl_delete_absent _ _ Hget), set_currentMessages_same.
  destruct l as [|x [|y l']]; reflexivity.
Qed.

End OneRequest.

Lemma set_currentMessages_submitted (m : Msg) (st : Sybase) :
  set_currentMessages (currentMessages st) (submitted m st) = set_queryCount (msgId m) st.
Proof. now destruct st. Qed.

(** X6.  A query and then its response, on a connected bridge whose table has no
    entry under the next identifier: the callback of the query is called
    once, with the failure if the response has an [error] and with the
    payload, nothing is left uncaught, and the object is as it was before
    the query but for the counter: the entry has left the table. *)
Theorem query_response_round_trip
  (st : Sybase) (w : ChildProcess) (sql : jsstring) (f : nat) (clock : Clock)
  (jsonMsg : JsonMsg.t) (l : list json) :
  connected st = true -> javaDB st = Some w ->
  jsonParser st = [ResponseListener] ->
  tbl_get (KNum (js_incr (queryCount st))) (currentMessages st) = None ->
  JsonMsg.msgId jsonMsg = Some (js_incr (queryCount st)) ->
  JsonMsg.result jsonMsg = Some l ->
  let r := run st [Query sql (CbFun f) clock; JsonValue jsonMsg] in
  fst r = set_queryCount (js_incr (queryCount st)) st
  /\ deliveries (snd r) = [Call f [failure_of jsonMsg; unwrapped l]]
  /\ uncaught_errors (snd r) = [].
Proof.
  intros Hc Hw Hls Hfresh Hid Hres. cbv zeta. cbn [run handle].
  rewrite (query_connected st sql clock (CbFun f) w Hc Hw).
  rewrite (response_after_query st sql f clock Hls jsonMsg l Hid Hres).
  cbn [fst snd]. split; [|split].
  - change (currentMessages (submitted (next_msg st sql (CbFun f) clock) st))
      with (tbl_set (KNum (js_incr (queryCount st)))
              (ERequest (next_msg st sql (CbFun f) clock)) (currentMessages st)).
    rewrite (tbl_delete_set _ _ _ Hfresh). apply set_currentMessages_submitted.
  - sort_trace. reflexivity.
  - sort_trace. reflexivity.
Qed.

Definition answer_one : JsonMsg.t :=
  JsonMsg.mk (Some 1) (Some [JArr [JNum 7]]) (Some 10) (Some 20) None.

Lemma query_response_round_trip_witness :
  connected ready_bridge = true
  /\ javaDB ready_bridge = Some ready_worker
  /\ jsonParser ready_bridge = [ResponseListener]
  /\ tbl_get (KNum (js_incr (queryCount ready_bridge))) (currentMessages ready_bridge) = None
  /\ JsonMsg.msgId answer_one = Some (js_incr (queryCount ready_bridge))
  /\ JsonMsg.result answer_one = Some [JArr [JNum 7]]
  /\ let r := run ready_bridge [Query (lit "select 7") (CbFun 1) example_clock;
                                JsonValue answer_one] in
     fst r = set_queryCount (js_incr (queryCount ready_bridge)) ready_bridge
     /\ deliveries (snd r) = [Call 1 [failure_of answer_one; unwrapped [JArr [JNum 7]]]]
     /\ uncaught_errors (snd r) = [].
Proof.
  do 6 (split; [reflexivity|]).
  apply (query_response_round_trip ready_bridge ready_worker (lit "select 7") 1 example_clock
           answer_one [JArr [JNum 7]]); reflexivity.
Defined.

(** X7.  The same response arriving twice: the callback is called for the first
    one only; the second finds no entry, raises a [TypeError] and delivers
    nothing. *)
Theorem duplicate_response_not_redelivered
  (st : Sybase) (w : ChildProcess) (sql : jsstring) (f : nat) (clock : Clock)
  (jsonMsg : JsonMsg.t) (l : list json) :
  connected st = true -> javaDB st = Some w ->
  jsonParser st = [ResponseListener] ->
  JsonMsg.msgId jsonMsg = Some (js_incr (queryCount st)) ->
  JsonMsg.result jsonMsg = Some l ->
  let r := run st [Query sql (CbFun f) clock; JsonValue jsonMsg; JsonValue jsonMsg] in
  deliveries (snd r) = [Call f [failure_of jsonMsg; unwrapped l]]
  /\ uncaught_errors (snd r)
     = [TypeError "Cannot read properties of undefined (reading 'hrstart')"]
  /\ tbl_get (KNum (js_incr (queryCount st))) (currentMessages (fst r)) = None.
Proof.
  intros Hc Hw Hls Hid Hres. cbv zeta. cbn [run handle].
  rewrite (query_connected st sql clock (CbFun f) w Hc Hw).
  rewrite (response_after_query st sql f clock Hls jsonMsg l Hid Hres).
  set (st2 := set_currentMessages _ _).
  assert (Hgone : tbl_get (key_of_msgId (JsonMsg.msgId jsonMsg)) (currentMessages st2) = None).
  { rewrite Hid. apply tbl_get_delete. }
  rewrite emit_parser_data_eq.
  change (jsonParser st2) with (jsonParser st). rewrite Hls, for_each_one.
  cbn [parser_listener]. rewrite (onSQLResponse_absent st2 jsonMsg l Hgone Hres).
  cbn [fst snd]. split; [|split].
  - sort_trace. reflexivity.
  - sort_trace. reflexivity.
  - rewrite Hid in Hgone. exact Hgone.
Qed.

Lemma duplicate_response_not_redelivered_witness :
  connected ready_bridge = true
  /\ javaDB ready_bridge = Some ready_worker
  /\ jsonParser ready_bridge = [ResponseListener]
  /\ JsonMsg.msgId answer_one = Some (js_incr (queryCount ready_bridge))
  /\ JsonMsg.result answer_one = Some [JArr [JNum 7]]
  /\ let r := run ready_bridge [Query (lit "select 7") (CbFun 1) example_clock;
                                JsonValue answer_one; JsonValue answer_one] in
     deliveries (snd r) = [Call 1 [failure_of answer_one; unwrapped [JArr [JNum 7]]]]
     /\ uncaught_errors (snd r)
        = [TypeError "Cannot read properties of undefined (reading 'hrstart')"]
     /\ tbl_get (KNum (js_incr (queryCount ready_bridge))) (currentMessages (fst r)) = None.
Proof.
  do 5 (split; [reflexivity|]).
  apply (duplicate_response_not_redelivered ready_bridge ready_worker (lit "select 7") 1
           example_clock answer_one [JArr [JNum 7]]); reflexivity.
Defined.

(** X8.  A response without [result] for a pending query: the entry leaves the
    table before [result.length] raises the [TypeError], so the callback of
    that query is not called, now or later. *)
Theorem response_without_result_loses_request
  (st : Sybase) (w : ChildProcess) (sql : jsstring) (f : nat) (clock : Clock)
  (jsonMsg : JsonMsg.t) :
  connected st = true -> javaDB st = Some w ->
  jsonParser st = [ResponseListener] ->
  JsonMsg.msgId jsonMsg = Some (js_incr (queryCount st)) ->
  JsonMsg.result jsonMsg = None ->
  let r := run st [Query sql (CbFun f) clock; JsonValue jsonMsg] in
  deliveries (snd r) = []
  /\ uncaught_errors (snd r)
     = [TypeError "Cannot read properties of undefined (reading 'length')"]
  /\ tbl_get (KNum (js_incr (queryCount st))) (currentMessages (fst r)) = None.
Proof.
  intros Hc Hw Hls Hid Hres. cbv zeta. cbn [run handle].
  rewrite (query_connected st sql clock (CbFun f) w Hc Hw).
  set (st1 := submitted _ _).
  rewrite emit_parser_data_eq.
  change (jsonParser st1) with (jsonParser st). rewrite Hls, for_each_one.
  cbn [parser_listener].
  assert (Hthrow : onSQLResponse jsonMsg st1 =
                   (set_currentMessages
                      (tbl_delete (KNum (js_incr (queryCount st))) (currentMessages st1)) st1,
                    [],
                    Throw (TypeError "Cannot read properties of undefined (reading 'length')"))).
  { cbv [onSQLResponse bind get modify ret throw]. rewrite Hres, Hid. reflexivity. }
  rewrite Hthrow. cbn [fst snd]. split; [|split].
  - sort_trace. reflexivity.
  - sort_trace. reflexivity.
  - apply tbl_get_delete.
Qed.

Definition answer_without_result : JsonMsg.t :=
  JsonMsg.mk (Some 1) None (Some 10) (Some 20) (Some (lit "syntax error")).

Lemma response_without_result_loses_request_witness :
  connected ready_bridge = true
  /\ javaDB ready_bridge = Some ready_worker
  /\ jsonParser ready_bridge = [ResponseListener]
  /\ JsonMsg.msgId answer_without_result = Some (js_incr (queryCount ready_bridge))
  /\ JsonMsg.result answer_without_result = None
  /\ let r := run ready_bridge [Query (lit "select 7") (CbFun 1) example_clock;
                                JsonValue answer_without_result] in
     deliveries (snd r) = []
     /\ uncaught_errors (snd r)
        = [TypeError "Cannot read properties of undefined (reading 'length')"]
     /\ tbl_get (KNum (js_incr (queryCount ready_bridge))) (currentMessages (fst r)) = None.
Proof.
  do 5 (split; [reflexivity|]).
  apply (response_without_result_loses_request ready_bridge ready_worker (lit "select 7") 1
           example_clock answer_without_result); reflexivity.
Defined.

(** ** A fault, whatever the table holds *)

(** The callbacks that the loop of [onSQLError] reaches: the functions at
    the head of the list, up to the first value that is no function. *)
Fixpoint leading_functions (cbs : list Callback) : list nat :=
  match cbs with
  | CbFun f :: cbs' => f :: leading_functions cbs'
  | _ => []
  end.

Lemma for_each_call (args : list Value) (cbs : list Callback) (st : Sybase) :
  for_each cbs (fun cb => call cb args) st =
  (st, List.map (fun f => Call f args) (leading_functions cbs),
   if forallb truthy cbs then Normal tt else Throw (TypeError "cb is not a function")).
Proof.
  induction cbs as [|cb cbs IH]; [reflexivity|].
  cbn [for_each]. unfold bind. destruct cb; cbn [call tell throw]; try reflexivity.
  rewrite IH. reflexivity.
Qed.

(** X9.  [onSQLError] in full.  The table is emptied and nothing else of the
    object changes: the bridge stays connected.  The callbacks are called
    with the failure in the order of the table, each once, up to the first
    entry whose callback is no function (the [null] of a [querySync], or the
    entry [cat]); there a [TypeError] is raised, and the requests after it
    are gone from the table without their callbacks having been called. *)
Theorem onSQLError_in_full (st : Sybase) (data : jsstring) :
  let cbs := List.map (fun kv => entry_callback (snd kv)) (currentMessages st) in
  onSQLError data st =
  (set_currentMessages [] st,
   failures data (leading_functions cbs),
   if forallb truthy cbs then Normal tt else Throw (TypeError "cb is not a function")).
Proof.
  cbv zeta. cbv [onSQLError bind get modify]. rewrite for_each_call. reflexivity.
Qed.

(** ** Two requests in flight *)

Section OtherKeys.

Variables (k k' : PropertyKey).
Hypothesis Hkk : key_eqb k k' = false.

Lemma tbl_get_replace_other (e : Entry) (t : Table) :
  tbl_get k (tbl_replace k' e t) = tbl_get k t.
Proof.
  induction t as [|[k0 e0] t IH]; [reflexivity|]. cbn [tbl_replace].
  destruct (key_eqb k' k0) eqn:E; cbn [tbl_get].
  - apply key_eqb_eq in E. subst k0. now rewrite Hkk.
  - now rewrite IH.
Qed.

Lemma tbl_get_append_other (e : Entry) (t : Table) :
  tbl_get k (t ++ [(k', e)]) = tbl_get k t.
Proof.
  induction t as [|[k0 e0] t IH]; cbn [app tbl_get].
  - now rewrite Hkk.
  - now rewrite IH.
Qed.

Lemma tbl_get_delete_other (t : Table) :
  tbl_get k (tbl_delete k' t) = tbl_get k t.
Proof.
  induction t as [|[k0 e0] t IH]; [reflexivity|]. cbn [tbl_delete].
  destruct (key_eqb k' k0) eqn:E; cbn [tbl_get].
  - apply key_eqb_eq in E. subst k0. now rewrite Hkk.
  - now rewrite IH.
Qed.

End OtherKeys.

Lemma tbl_get_insert_index_other (k : PropertyKey) (z : Z) (e : Entry) (t : Table) :
  key_eqb k (KNum z) = false ->
  tbl_get k (tbl_insert_index z e t) = tbl_get k t.
Proof.
  intros Hk. induction t as [|[[z'|s] e'] t IH]; cbn [tbl_insert_index].
  - cbn [tbl_get]. now rewrite Hk.
  - destruct (is_array_index (KNum z') && (z' <? z)); cbn [tbl_get].
    + now rewrite IH.
    + now rewrite Hk.
  - cbn [tbl_get]. now rewrite Hk.
Qed.

(** [table[k'] = e] leaves the other keys alone. *)
Lemma tbl_get_set_other (k k' : PropertyKey) (e : Entry) (t : Table) :
  key_eqb k k' = false -> tbl_get k (tbl_set k' e t) = tbl_get k t.
Proof.
  intros Hk. unfold tbl_set. destruct (tbl_get k' t).
  - now apply tbl_get_replace_other.
  - destruct k' as [z|s].
    + destruct (is_array_index (KNum z)).
      * now apply tbl_get_insert_index_other.
      * now apply tbl_get_append_other.
    + now apply tbl_get_append_other.
Qed.

(** X10.  The listener of [querySync] compares the [msgId] of a message with the
    counter as it is when the message arrives, not with the identifier of
    its own request.  So a [querySync] followed by a [query] whose response
    arrives first: the callback of the query gets its payload, and the
    promise of the [querySync] is resolved with that same response (the
    sequence as it came), while its own request, under another identifier,
    is still pending in the table. *)
Theorem querySync_resolved_by_later_query
  (st : Sybase) (w : ChildProcess) (sql1 sql2 : jsstring) (p f : nat)
  (clock1 clock2 : Clock) (jsonMsg : JsonMsg.t) (l : list json) :
  connected st = true -> javaDB st = Some w ->
  jsonParser st = [ResponseListener] ->
  queryCount st + 1 < 2 ^ 53 ->
  JsonMsg.msgId jsonMsg = Some (js_incr (js_incr (queryCount st))) ->
  JsonMsg.result jsonMsg = Some l ->
  JsonMsg.error jsonMsg = None ->
  let r := run st [QuerySync sql1 p clock1; Query sql2 (CbFun f) clock2;
                   JsonValue jsonMsg] in
  deliveries (snd r) = [Call f [VNull; unwrapped l]; Resolve p (VJson (JArr l))]
  /\ uncaught_errors (snd r) = []
  /\ js_incr (queryCount st) <> js_incr (js_incr (queryCount st))
  /\ tbl_get (KNum (js_incr (queryCount st))) (currentMessages (fst r))
     = Some (ERequest (next_msg st sql1 CbNull clock1))
  /\ jsonParser (fst r) = [ResponseListener].
Proof.
  intros Hc Hw Hls Hq Hid Hres Herr. cbv zeta.
  assert (Hne : js_incr (queryCount st) <> js_incr (js_incr (queryCount st))).
  { unfold js_incr.
    destruct (Z.ltb_spec (queryCount st) (2 ^ 53)); [|lia].
    destruct (Z.ltb_spec (queryCount st + 1) (2 ^ 53)); lia. }
  cbn [run handle].
  rewrite (querySync_connected st sql1 clock1 p w Hc Hw).
  set (m1 := next_msg st sql1 CbNull clock1).
  set (st1 := set_jsonParser _ (submitted m1 st)).
  rewrite (query_connected st1 sql2 clock2 (CbFun f) w Hc Hw).
  set (m2 := next_msg st1 sql2 (CbFun f) clock2).
  set (st2 := submitted m2 st1).
  assert (Hget : tbl_get (key_of_msgId (JsonMsg.msgId jsonMsg)) (currentMessages st2)
                 = Some (ERequest m2)).
  { rewrite Hid. apply (tbl_get_set (KNum (msgId m2))). }
  pose proof (onSQLResponse_pending st2 jsonMsg m2 l Hget Hres) as Hfirst.
  cbn [callback m2 next_msg] in Hfirst.
  set (st3 := set_currentMessages _ st2) in Hfirst.
  assert (Hsecond : onResponse p jsonMsg st3 =
                    (set_jsonParser
                       (remove_listener parser_listener_eqb (OnResponse p) (jsonParser st3))
                       st3,
                     [Resolve p (VJson (JArr l))], Normal tt)).
  { apply onResponse_resolves_with_sequence; assumption. }
  rewrite emit_parser_data_eq.
  change (jsonParser st2) with (jsonParser st ++ [OnResponse p]).
  rewrite Hls. cbn [app].
  rewrite (for_each_cons_normal ResponseListener [OnResponse p]
             (fun l0 => parser_listener l0 jsonMsg) st2 st3 _ Hfirst).
  rewrite for_each_one. cbn [parser_listener]. rewrite Hsecond.
  cbn [state_of effects_of completion_of fst snd].
  split; [|split; [|split; [exact Hne|split]]].
  - sort_trace. unfold failure_of. now rewrite Herr.
  - sort_trace. reflexivity.
  - cbn [currentMessages set_jsonParser]. subst st3. cbn [currentMessages set_currentMessages].
    rewrite Hid. cbn [key_of_msgId].
    assert (Hk : key_eqb (KNum (js_incr (queryCount st)))
                   (KNum (js_incr (js_incr (queryCount st)))) = false).
    { cbn [key_eqb]. now apply Z.eqb_neq. }
    rewrite (tbl_get_delete_other _ _ Hk).
    change (currentMessages st2)
      with (tbl_set (KNum (js_incr (js_incr (queryCount st)))) (ERequest m2)
              (currentMessages st1)).
    rewrite (tbl_get_set_other _ _ _ _ Hk).
    apply (tbl_get_set (KNum (msgId m1))).
  - cbn [jsonParser set_jsonParser]. subst st3.
    change (jsonParser (set_currentMessages _ st2)) with (jsonParser st ++ [OnResponse p]).
    rewrite Hls. cbn [app remove_listener parser_listener_eqb].
    now rewrite Nat.eqb_refl.
Qed.

Definition answer_two : JsonMsg.t :=
  JsonMsg.mk (Some 2) (Some [JArr [JNum 7]]) (Some 10) (Some 20) None.

Lemma querySync_resolved_by_later_query_witness :
  connected ready_bridge = true
  /\ javaDB ready_bridge = Some ready_worker
  /\ jsonParser ready_bridge = [ResponseListener]
  /\ queryCount ready_bridge + 1 < 2 ^ 53
  /\ JsonMsg.msgId answer_two = Some (js_incr (js_incr (queryCount ready_bridge)))
  /\ JsonMsg.result answer_two = Some [JArr [JNum 7]]
  /\ JsonMsg.error answer_two = None
  /\ let r := run ready_bridge [QuerySync (lit "select 1") 9 example_clock;
                                Query (lit "select 2") (CbFun 1) example_clock;
                                JsonValue answer_two] in
     deliveries (snd r)
     = [Call 1 [VNull; unwrapped [JArr [JNum 7]]]; Resolve 9 (VJson (JArr [JArr [JNum 7]]))]
     /\ uncaught_errors (snd r) = []
     /\ js_incr (queryCount ready_bridge) <> js_incr (js_incr (queryCount ready_bridge))
     /\ tbl_get (KNum (js_incr (queryCount ready_bridge))) (currentMessages (fst r))
        = Some (ERequest (next_msg ready_bridge (lit "select 1") CbNull example_clock))
     /\ jsonParser (fst r) = [ResponseListener].
Proof.
  do 7 (split; [reflexivity|]).
  apply (querySync_resolved_by_later_query ready_bridge ready_worker (lit "select 1")
           (lit "select 2") 9 1 example_clock example_clock answer_two [JArr [JNum 7]]);
    reflexivity.
Defined.

(** ** Submissions on a bridge that ran *)

(** X11.  On a bridge built by [new Sybase], whatever happened to it since:
    while it is connected it has a worker, so [this.javaDB.stdin] is there
    when a submission writes to it; [query] and [querySync] return without
    raising an error, connected or not. *)
Theorem submission_never_throws
  (cfg : Config) (timing logging : bool) (evs : list Event)
  (sql : jsstring) (cb : Callback) (p : nat) (clock : Clock) :
  let st := fst (run (new_Sybase cfg timing logging) evs) in
  good st
  /\ completion_of (query sql cb clock st) = Normal tt
  /\ completion_of (querySync sql p clock st) = Normal tt.
Proof.
  cbv zeta.
  destruct (run_counts evs (new_Sybase cfg timing logging)
              (good_new_Sybase cfg timing logging)) as (Hg & _ & _).
  set (st := fst (run (new_Sybase cfg timing logging) evs)) in *.
  split; [exact Hg|].
  destruct (connected st) eqn:Hc.
  - destruct (javaDB st) as [w|] eqn:Hw; [|exfalso; now apply (Hg Hc)].
    rewrite (query_connected st sql clock cb w Hc Hw).
    rewrite (querySync_connected st sql clock p w Hc Hw). now split.
  - rewrite (query_disconnected st sql clock cb Hc).
    rewrite (querySync_disconnected st sql clock p Hc). now split.
Qed.

(** X12.  After [disconnect] the submissions of both modes are refused with the
    not-connected error and nothing is written; the object is as before but
    for the flag, so what was pending is still in the table. *)
Theorem submission_after_disconnect
  (st : Sybase) (w : ChildProcess) (sql : jsstring) (f p : nat) (clock : Clock) :
  javaDB st = Some w ->
  run st [Disconnect; Query sql (CbFun f) clock; QuerySync sql p clock] =
  (set_connected false st, [Kill; Call f [VError not_connected]; Reject p not_connected]).
Proof.
  intros Hw. cbn [run handle].
  assert (Hd : disconnect st = (set_connected false st, [Kill], Normal tt)).
  { cbv [disconnect kill the_javaDB bind get ret tell modify]. now rewrite Hw. }
  rewrite Hd.
  rewrite (query_disconnected (set_connected false st) sql clock (CbFun f) eq_refl).
  rewrite (querySync_disconnected (set_connected false st) sql clock p eq_refl).
  reflexivity.
Qed.

Lemma submission_after_disconnect_witness :
  javaDB busy_bridge = Some ready_worker
  /\ run busy_bridge [Disconnect; Query (lit "select 3") (CbFun 3) example_clock;
                      QuerySync (lit "select 3") 4 example_clock] =
     (set_connected false busy_bridge,
      [Kill; Call 3 [VError not_connected]; Reject 4 not_connected]).
Proof.
  split; [reflexivity|].
  apply (submission_after_disconnect busy_bridge ready_worker (lit "select 3") 3 4
           example_clock).
  reflexivity.
Defined.

(** ** Connecting again *)






(** ** The console *)

(** Code that prints nothing while [logs] is off, and leaves it off. *)
Definition silent {A : Type} (m : Eff A) : Prop :=
  forall st, logs st = false ->
    logs (state_of (m st)) = false /\ console_output (effects_of (m st)) = [].

Create HintDb silent discriminated.

Section Silent.

Lemma console_output_app (a b : list Effect) :
  console_output (a ++ b) = console_output a ++ console_output b.
Proof. apply flat_map_app. Qed.

Lemma silent_ret {A : Type} (a : A) : silent (ret a).
Proof. intros st H. now split. Qed.

Lemma silent_get : silent get.
Proof. intros st H. now split. Qed.

Lemma silent_throw {A : Type} (e : JSError) : silent (@throw A e).
Proof. intros st H. now split. Qed.

Lemma silent_tell (e : Effect) : console_output [e] = [] -> silent (tell e).
Proof. intros He st H. now split. Qed.

Lemma silent_modify (f : Sybase -> Sybase) :
  (forall st, logs (f st) = logs st) -> silent (modify f).
Proof. intros Hf st H. cbn. split; [now rewrite Hf|reflexivity]. Qed.

Lemma silent_bind {A B : Type} (m : Eff A) (k : A -> Eff B) :
  silent m -> (forall a, silent (k a)) -> silent (bind m k).
Proof.
  intros Hm Hk st H. unfold bind. specialize (Hm st H).
  destruct (m st) as [[s o] [a|e]]; cbn [state_of effects_of fst snd] in Hm |- *;
    [|exact Hm].
  destruct Hm as [H1 H2]. specialize (Hk a s H1).
  destruct (k a s) as [[s' o'] c']; cbn [state_of effects_of fst snd] in Hk |- *.
  destruct Hk as [H1' H2']. split; [exact H1'|].
  now rewrite console_output_app, H2, H2'.
Qed.

Lemma silent_for_each {X : Type} (xs : list X) (f : X -> Eff unit) :
  (forall x, silent (f x)) -> silent (for_each xs f).
Proof.
  intros Hf. induction xs as [|x xs IH]; cbn [for_each].
  - apply silent_ret.
  - apply silent_bind; [apply Hf|intros _; exact IH].
Qed.

Lemma silent_executor (p : nat) (body : Eff unit) : silent body -> silent (executor p body).
Proof.
  intros Hb st H. unfold executor. specialize (Hb st H).
  destruct (body st) as [[s o] [a|e]]; cbn [state_of effects_of fst snd] in Hb |- *;
    [exact Hb|].
  destruct Hb as [H1 H2]. split; [exact H1|].
  now rewrite console_output_app, H2.
Qed.

Lemma silent_call (cb : Callback) (args : list Value) : silent (call cb args).
Proof. destruct cb; cbn [call]; (apply silent_throw || now apply silent_tell). Qed.

(** [this.log] itself: it prints only when [logs] is on. *)
Lemma silent_log (what : LogLine) : silent (log what).
Proof.
  intros st H. unfold log, bind, get. rewrite H. now split.
Qed.

End Silent.

#[local] Hint Resolve silent_ret silent_get silent_throw silent_call silent_log : silent.

(** One function of the bridge after the other. *)
Ltac silent_step :=
  match goal with
  | |- silent (bind _ _) => apply silent_bind; [|intros ?]
  | |- silent (for_each _ _) => apply silent_for_each; intros ?
  | |- silent (executor _ _) => apply silent_executor
  | |- silent (modify _) => apply silent_modify; intros ?; reflexivity
  | |- silent (tell _) => apply silent_tell; reflexivity
  | |- silent (match ?x with _ => _ end) => destruct x
  | |- silent _ => solve [auto with silent nocore]
  end.

Ltac silent_auto := cbv zeta; repeat silent_step.

Section SilentBridge.

Lemma silent_the_javaDB : silent the_javaDB.
Proof. unfold the_javaDB. silent_auto. Qed.

Hint Resolve silent_the_javaDB : silent.

Lemma silent_set_stdout_data (ls : list StdoutListener) : silent (set_stdout_data ls).
Proof. unfold set_stdout_data. silent_auto. Qed.

Lemma silent_set_stderr_data (ls : list StderrListener) : silent (set_stderr_data ls).
Proof. unfold set_stderr_data. silent_auto. Qed.

Lemma silent_kill : silent kill.
Proof. unfold kill. silent_auto. Qed.

Lemma silent_stdin_write (line : jsstring) : silent (stdin_write line).
Proof. unfold stdin_write. silent_auto. Qed.

Lemma silent_connect_callback (cb : ConnectCallback) (err : option JSError) (data : Value) :
  silent (connect_callback cb err data).
Proof. unfold connect_callback. silent_auto. Qed.

Lemma silent_add_parser_listener (l : ParserListener) : silent (add_parser_listener l).
Proof. unfold add_parser_listener. silent_auto. Qed.

Hint Resolve silent_set_stdout_data silent_set_stderr_data silent_kill silent_stdin_write
  silent_connect_callback silent_add_parser_listener : silent.

Lemma silent_onSQLResponse (jsonMsg : JsonMsg.t) : silent (onSQLResponse jsonMsg).
Proof. unfold onSQLResponse. silent_auto. Qed.

Lemma silent_onSQLError (data : jsstring) : silent (onSQLError data).
Proof. unfold onSQLError. silent_auto. Qed.

Lemma silent_onResponse (p : nat) (jsonMsg : JsonMsg.t) : silent (onResponse p jsonMsg).
Proof. unfold onResponse. silent_auto. Qed.

Lemma silent_connectCore_stdout (cb : ConnectCallback) (data : jsstring) :
  silent (connectCore_stdout cb data).
Proof. unfold connectCore_stdout. silent_auto. Qed.

Lemma silent_connectCore_stderr (cb : ConnectCallback) (data : jsstring) :
  silent (connectCore_stderr cb data).
Proof. unfold connectCore_stderr. silent_auto. Qed.

Lemma silent_connectCore (cb : ConnectCallback) : silent (connectCore cb).
Proof. unfold connectCore. silent_auto. Qed.

Lemma silent_isConnected : silent isConnected.
Proof. unfold isConnected. silent_auto. Qed.

Hint Resolve silent_onSQLResponse silent_onSQLError silent_onResponse
  silent_connectCore_stdout silent_connectCore_stderr silent_connectCore
  silent_isConnected : silent.

Lemma silent_prepareQuery (sql : jsstring) (cb : Callback) (clock : Clock) :
  silent (prepareQuery sql cb clock).
Proof. unfold prepareQuery. silent_auto. Qed.

Hint Resolve silent_prepareQuery : silent.

Lemma silent_handle (ev : Event) : silent (handle ev).
Proof.
  destruct ev; cbn [handle];
    unfold connect, connectAsync, query, querySync, disconnect,
      emit_stdout_data, emit_stderr_data, emit_parser_data;
    silent_auto;
    unfold stdout_listener, stderr_listener, parser_listener; silent_auto.
Qed.

End SilentBridge.

(** X14.  With [logs] off the bridge never prints, whatever [logTiming] says:
    the timing line of a response goes through [this.log] like every other
    line, so [logTiming] alone shows nothing. *)
Theorem no_console_output_without_logs
  (cfg : Config) (timing : bool) (evs : list Event) :
  console_output (snd (run (new_Sybase cfg timing false) evs)) = [].
Proof.
  assert (H : forall st, logs st = false ->
                logs (fst (run st evs)) = false /\ console_output (snd (run st evs)) = []).
  { induction evs as [|ev evs IH]; intros st Hst; [now split|].
    cbn [run]. destruct (silent_handle ev st Hst) as [H1 H2].
    destruct (handle ev st) as [[st' out] c]. cbn [state_of effects_of fst snd] in H1, H2.
    destruct (IH st' H1) as [H3 H4]. destruct (run st' evs) as [st'' out'].
    cbn [fst snd] in *. split; [exact H3|].
    rewrite !console_output_app, H2, H4. now destruct c. }
  apply (H (new_Sybase cfg timing false)). reflexivity.
Qed.

(** ** After a fault *)

Lemma written_lines_calls (args : list Value) (fs : list nat) :
  written_lines (List.map (fun f => Call f args) fs) = [].
Proof. induction fs as [|f fs IH]; [reflexivity|exact IH]. Qed.

(** X15.  A fault does not disconnect the bridge.  On a connected bridge whose
    [stderr] has the listener of the handshake's success, error data
    followed by a query: whatever the fault did to the requests that were
    pending, the query is accepted, its line is written with the next
    identifier, and its request is then the only entry of the table. *)
Theorem fault_leaves_bridge_connected
  (st : Sybase) (w : ChildProcess) (data sql : jsstring) (f : nat) (clock : Clock) :
  connected st = true -> javaDB st = Some w -> stderr_data w = [ErrorListener] ->
  let r := run st [StderrData data; Query sql (CbFun f) clock] in
  connected (fst r) = true
  /\ currentMessages (fst r)
     = [(KNum (js_incr (queryCount st)), ERequest (next_msg st sql (CbFun f) clock))]
  /\ List.map line_msgId (written_lines (snd r)) = [Some (js_incr (queryCount st))].
Proof.
  intros Hc Hw Hls. cbv zeta. cbn [run handle].
  assert (Hfault : emit_stderr_data data st = onSQLError data st).
  { unfold emit_stderr_data.
    rewrite (bind_get_eq
               (fun st0 => match javaDB st0 with
                           | Some w0 => for_each (stderr_data w0)
                                          (fun l => stderr_listener l data)
                           | None => ret tt
                           end) st), Hw, Hls.
    apply (for_each_one ErrorListener (fun l => stderr_listener l data) st). }
  rewrite Hfault.
  destruct (onSQLError data st) as [[s out] c] eqn:E.
  assert (Hs : s = set_currentMessages [] st).
  { revert E. cbv [onSQLError bind get modify]. rewrite for_each_call.
    intros E. now injection E as <- _ _. }
  assert (Hout : written_lines out = []).
  { revert E. cbv [onSQLError bind get modify]. rewrite for_each_call.
    intros E. injection E as _ <- _. cbn [app]. apply written_lines_calls. }
  subst s.
  rewrite (query_connected (set_currentMessages [] st) sql clock (CbFun f) w Hc Hw).
  cbn [fst snd]. split; [exact Hc|]. split.
  - cbn [submitted currentMessages set_currentMessages set_queryCount msgId next_msg
         queryCount].
    unfold tbl_set. cbn [tbl_get].
    destruct (is_array_index (KNum (js_incr (queryCount st)))); reflexivity.
  - rewrite !written_lines_app, Hout, written_lines_uncaught, !written_lines_log.
    cbn [app written_lines flat_map List.map].
    now rewrite line_msgId_request.
Qed.

Lemma fault_leaves_bridge_connected_witness :
  connected busy_bridge = true
  /\ javaDB busy_bridge = Some ready_worker
  /\ stderr_data ready_worker = [ErrorListener]
  /\ let r := run busy_bridge [StderrData (lit "worker died");
                               Query (lit "select 3") (CbFun 3) example_clock] in
     connected (fst r) = true
     /\ currentMessages (fst r)
        = [(KNum (js_incr (queryCount busy_bridge)),
            ERequest (next_msg busy_bridge (lit "select 3") (CbFun 3) example_clock))]
     /\ List.map line_msgId (written_lines (snd r))
        = [Some (js_incr (queryCount busy_bridge))].
Proof.
  do 3 (split; [reflexivity|]).
  apply (fault_leaves_bridge_connected busy_bridge ready_worker (lit "worker died")
           (lit "select 3") 3 example_clock); reflexivity.
Defined.
